(** * ST-Manager: forum tag fetcher and automation hooks

    A shallow embedding of
      - [core/automation/forum_tag_fetcher.py]
        ([NaobaijinTagParser], [ForumTagFetcher], [TagProcessor]) and
      - [core/services/automation_service.py]
        ([auto_run_rules_on_card], [auto_run_forum_tags_on_link_update]),
    followed by the properties of these functions.

    Conventions.  A Python [str] is a list of Unicode code points.  Python
    integers are unbounded and are modelled in [Z].  A Python call that can
    raise returns a [result]; code that talks to the outside world (HTTP,
    configuration, caches, the plan executor) threads an explicit world
    state. *)

From Stdlib Require Import ZArith NArith Ascii String Lia.
From stdpp Require Import base list gmap.

Local Open Scope N_scope.

(** ** Python strings *)

Definition str : Type := list N.

(** An ASCII literal of the source, as code points. *)
Definition py (s : string) : str := map N_of_ascii (list_ascii_of_string s).

(** [str.isspace] on one character ([Py_UNICODE_ISSPACE]); it is also what
    [\s] matches in a [re] pattern over [str], and what [str.strip()]
    removes. *)
Definition isspace (c : N) : bool :=
  ((0x09 <=? c) && (c <=? 0x0D)) || ((0x1C <=? c) && (c <=? 0x20))
  || (c =? 0x85) || (c =? 0xA0) || (c =? 0x1680)
  || ((0x2000 <=? c) && (c <=? 0x200A))
  || (c =? 0x2028) || (c =? 0x2029) || (c =? 0x202F) || (c =? 0x205F)
  || (c =? 0x3000).

Fixpoint dropwhile (p : N -> bool) (s : str) : str :=
  match s with
  | [] => []
  | c :: s' => if p c then dropwhile p s' else s
  end.

(** [s.lstrip()], [s.rstrip()], [s.strip()] without argument. *)
Definition lstrip (s : str) : str := dropwhile isspace s.
Definition rstrip (s : str) : str := rev (dropwhile isspace (rev s)).
Definition strip (s : str) : str := rstrip (lstrip s).

(** [s.rstrip(chars)] for a one-character [chars]. *)
Definition rstrip_char (c : N) (s : str) : str :=
  rev (dropwhile (N.eqb c) (rev s)).

(** [s.startswith(p)] and [s.endswith(p)]. *)
Fixpoint startswith (s p : str) {struct p} : bool :=
  match p, s with
  | [], _ => true
  | _ :: _, [] => false
  | c :: p', d :: s' => (c =? d) && startswith s' p'
  end.

Definition endswith (s p : str) : bool := startswith (rev s) (rev p).

(** [p in s] for two strings: [p] occurs in [s] as a substring. *)
Fixpoint contains (p s : str) : bool :=
  startswith s p ||
  match s with
  | [] => false
  | _ :: s' => contains p s'
  end.

(** [''.join(parts)]. *)
Definition join (parts : list str) : str := concat parts.

(** [s.lower()].  Only the ASCII capitals are folded.  The source applies
    [lower] before comparing against ASCII constants that contain no [k]:
    the characters outside A-Z whose Unicode lower case contains an ASCII
    letter are U+212A (to [k]) and U+0130 (to [i] followed by U+0307), so
    these comparisons come out the same under full Unicode case folding. *)
Definition lower_char (c : N) : N :=
  if (0x41 <=? c) && (c <=? 0x5A) then c + 0x20 else c.
Definition lower (s : str) : str := map lower_char s.

Definition str_eqb (a b : str) : bool := bool_decide (a = b).

(** Truthiness of a [str] and of an optional [str] ([None] or a string). *)
Definition truthy_str (s : str) : bool :=
  match s with [] => false | _ => true end.
Definition truthy_opt (o : option str) : bool :=
  match o with Some s => truthy_str s | None => false end.

(** [a or b] on optional strings. *)
Definition py_or (a b : option str) : option str :=
  if truthy_opt a then a else b.

(** ** Exceptions *)

(** The classes told apart: some classes derived from [Exception] (every
    other such class is [OtherException]), and the classes derived from
    [BaseException] only, of which three are built in (every other such
    class is [OtherBaseException]). *)
Inductive exn_class : Type :=
  | TypeError | ValueError | KeyError | AttributeError
  | RequestException | OtherException
  | KeyboardInterrupt | SystemExit | GeneratorExit | OtherBaseException.

(** [isinstance(e, Exception)], by class. *)
Definition is_Exception (c : exn_class) : bool :=
  match c with
  | KeyboardInterrupt | SystemExit | GeneratorExit | OtherBaseException =>
      false
  | TypeError | ValueError | KeyError | AttributeError
  | RequestException | OtherException => true
  end.

(** A raised exception: its class, and what [str(e)] does.  [str(e)]
    returns [exn_msg], unless the [__str__] of the exception raises: then
    [exn_str_raises] is the class and the text of what it raises. *)
Record exn : Type := mkExn {
  exn_cls : exn_class;
  exn_msg : str;
  exn_str_raises : option (exn_class * str)
}.

(** An exception with a [__str__] that returns, as every built-in one. *)
Definition Exn (cls : exn_class) (msg : str) : exn := mkExn cls msg None.

Inductive result (A : Type) : Type :=
  | Ok (a : A)
  | Raise (e : exn).
Arguments Ok {A} a.
Arguments Raise {A} e.

Definition rbind {A B} (r : result A) (k : A -> result B) : result B :=
  match r with
  | Ok a => k a
  | Raise e => Raise e
  end.

(** [str(e)], also what [f"{e}"] evaluates. *)
Definition str_exn (e : exn) : result str :=
  match exn_str_raises e with
  | None => Ok (exn_msg e)
  | Some (cls, msg) => Raise (Exn cls msg)
  end.

(** [except Exception as e: return k(str(e))], met by the exception [e] on
    its way out of the [try] block.  The clause takes only an instance of
    [Exception]; any other exception goes on to the caller, and so does
    what [str(e)] raises inside the handler. *)
Definition except_Exception {A} (e : exn) (k : str -> A) : result A :=
  if is_Exception (exn_cls e) then rbind (str_exn e) (fun msg => Ok (k msg))
  else Raise e.

(** The exceptions such a handler turns into a value: the instances of
    [Exception] whose [str(e)] returns. *)
Definition handled (e : exn) : bool :=
  is_Exception (exn_cls e)
  && match exn_str_raises e with None => true | Some _ => false end.

(** What reaches the caller when the handler does not turn [e] into a
    value: [e] itself when it is no instance of [Exception], and
    otherwise what its [__str__] raises. *)
Definition lets_through (e e' : exn) : Prop :=
  (is_Exception (exn_cls e) = false /\ e' = e) \/
  (is_Exception (exn_cls e) = true /\
   exists cls msg, exn_str_raises e = Some (cls, msg) /\ e' = Exn cls msg).

(** ** [NaobaijinTagParser]: the HTML scanner *)

Module NaobaijinTagParser.

(** The callbacks [HTMLParser.feed] and [HTMLParser.close] make, in
    document order.  An attribute value is [None] for an attribute written
    without a value ([<div class>]). *)
Inductive event : Type :=
  | StartTag (tag : str) (attrs : list (str * option str))
  | EndTag (tag : str)
  | StartEndTag (tag : str) (attrs : list (str * option str))
  | Data (data : str)
  | Comment (data : str)
  | Decl (data : str)
  | Pi (data : str).

Record parser : Type := mkParser {
  tags : list str;
  in_tag_pill : bool;
  current_tag_text : list str;
  div_depth : Z;
  expecting_text : bool;
  in_main_tags_container : bool;
  main_container_depth : Z
}.

(** [__init__] *)
Definition init : parser :=
  {| tags := [];
     in_tag_pill := false;
     current_tag_text := [];
     div_depth := 0;
     expecting_text := false;
     in_main_tags_container := false;
     main_container_depth := 0 |}.

Definition set_main (b : bool) (d : Z) (self : parser) : parser :=
  {| tags := tags self;
     in_tag_pill := in_tag_pill self;
     current_tag_text := current_tag_text self;
     div_depth := div_depth self;
     expecting_text := expecting_text self;
     in_main_tags_container := b;
     main_container_depth := d |}.

Definition set_pill (b : bool) (d : Z) (e : bool) (txt : list str)
    (self : parser) : parser :=
  {| tags := tags self;
     in_tag_pill := b;
     current_tag_text := txt;
     div_depth := d;
     expecting_text := e;
     in_main_tags_container := in_main_tags_container self;
     main_container_depth := main_container_depth self |}.

Definition set_tags (ts : list str) (self : parser) : parser :=
  {| tags := ts;
     in_tag_pill := in_tag_pill self;
     current_tag_text := current_tag_text self;
     div_depth := div_depth self;
     expecting_text := expecting_text self;
     in_main_tags_container := in_main_tags_container self;
     main_container_depth := main_container_depth self |}.

(** [dict(attrs)[key]]: the last pair with that key wins. *)
Fixpoint attrs_lookup (key : str) (attrs : list (str * option str))
    : option (option str) :=
  match attrs with
  | [] => None
  | (k, v) :: rest =>
      match attrs_lookup key rest with
      | Some v' => Some v'
      | None => if str_eqb k key then Some v else None
      end
  end.

(** [dict(attrs).get('class', '')]: the outer value is the Python value,
    [None] being Python's [None]. *)
Definition class_attr_of (attrs : list (str * option str)) : option str :=
  match attrs_lookup (py "class") attrs with
  | Some v => v
  | None => Some []
  end.

(** [re.compile(r'pill_a2c9e8\s+small_a2c9e8').match] at the head of [s]:
    [\s+] is greedy, and since [s] of [small] is no white space, giving
    characters back never helps. *)
Definition drop_prefix (p s : str) : option str :=
  if startswith s p then Some (drop (length p) s) else None.

Definition tag_class_pattern_match (s : str) : bool :=
  match drop_prefix (py "pill_a2c9e8") s with
  | Some (c :: rest) =>
      isspace c && startswith (dropwhile isspace rest) (py "small_a2c9e8")
  | _ => false
  end.

(** [self.tag_class_pattern.search(s)], as a truth value. *)
Fixpoint tag_class_pattern_search (s : str) : bool :=
  tag_class_pattern_match s ||
  match s with
  | [] => false
  | _ :: s' => tag_class_pattern_search s'
  end.

Definition type_error_none : exn :=
  Exn TypeError (py "argument of type 'NoneType' is not iterable").

Definition handle_starttag (self : parser) (tag : str)
    (attrs : list (str * option str)) : result parser :=
  if str_eqb tag (py "div") then
    match class_attr_of attrs with
    | None => Raise type_error_none
    | Some class_attr =>
        let self :=
          if contains (py "tags_e5a45e") class_attr then set_main true 1 self
          else if in_main_tags_container self
          then set_main true (main_container_depth self + 1) self
          else self in
        Ok
          (if in_main_tags_container self then
             if tag_class_pattern_search class_attr then
               if negb (contains (py "defaultColor__4bd52") class_attr)
               then set_pill true 1 true [] self
               else self
             else if in_tag_pill self then
               let self :=
                 set_pill true (div_depth self + 1) (expecting_text self)
                   (current_tag_text self) self in
               if expecting_text self
                  && contains (py "lineClamp1__4bd52") class_attr
               then set_pill true (div_depth self) false
                      (current_tag_text self) self
               else self
             else self
           else self)
    end
  else Ok self.

Definition handle_endtag (self : parser) (tag : str) : parser :=
  if str_eqb tag (py "div") then
    let self :=
      if in_main_tags_container self then
        let d := (main_container_depth self - 1)%Z in
        if (d =? 0)%Z then set_main false d self else set_main true d self
      else self in
    if in_tag_pill self then
      let d := (div_depth self - 1)%Z in
      if (d =? 0)%Z then
        let tag_text := strip (join (current_tag_text self)) in
        let self :=
          if truthy_str tag_text
             && negb (startswith tag_text (py "+"))
             && negb (bool_decide (tag_text ∈ tags self))
          then set_tags (tags self ++ [tag_text]) self
          else self in
        set_pill false d (expecting_text self) [] self
      else set_pill true d (expecting_text self) (current_tag_text self) self
    else self
  else self.

(** The text an open pill would be finalized with, and whether it would
    be appended to the tags: the test of [handle_endtag], as a
    proposition. *)
Definition pill_text (self : parser) : str :=
  strip (join (current_tag_text self)).

Definition pill_kept (self : parser) : Prop :=
  pill_text self <> [] /\
  startswith (pill_text self) (py "+") = false /\
  pill_text self ∉ tags self.

Definition handle_data (self : parser) (data : str) : parser :=
  if in_tag_pill self
  then set_pill true (div_depth self) (expecting_text self)
         (current_tag_text self ++ [data]) self
  else self.

(** One callback.  [handle_startendtag] is the base class's: the start
    handler, then the end handler.  The remaining callbacks are the base
    class's no-ops. *)
Definition handle (self : parser) (ev : event) : result parser :=
  match ev with
  | StartTag tag attrs => handle_starttag self tag attrs
  | EndTag tag => Ok (handle_endtag self tag)
  | StartEndTag tag attrs =>
      rbind (handle_starttag self tag attrs)
        (fun self => Ok (handle_endtag self tag))
  | Data data => Ok (handle_data self data)
  | Comment _ | Decl _ | Pi _ => Ok self
  end.

(** The callbacks of one document, in order; an exception raised by a
    handler leaves [feed]. *)
Fixpoint run (self : parser) (evs : list event) : result parser :=
  match evs with
  | [] => Ok self
  | ev :: evs' => rbind (handle self ev) (fun self => run self evs')
  end.

(** A fresh parser fed one document: [parser.tags] afterwards. *)
Definition scan (evs : list event) : result (list str) :=
  rbind (run init evs) (fun self => Ok (tags self)).

End NaobaijinTagParser.

(** ** [ForumTagFetcher]: validation and the two-attempt fetch *)

Module ForumTagFetcher.

Definition NAOBAIJIN_DOMAINS : list str :=
  [py "naobaijin.app"; py "www.naobaijin.app"].

(** What the fetcher takes from outside this repository: the standard
    library's URL and HTML parsers, and the [requests] session.

    [session_get url w] is [self.session.get(url, timeout=self.timeout)] in
    world [w]: it raises or gives a response, and leaves a new world.
    [html_events text] is what [feed(text)] followed by [close()] does
    on its own account: the sequence of callbacks it makes, and the
    exception the tokenizer raises after them, if it raises one (an
    [AssertionError] on an unknown marked section).  [urlparse_netloc url]
    is [urlparse(url).netloc], or the exception [urlparse] raises.

    [_extract_title] is the fetcher's own method; its regular-expression
    search is not unfolded here, and nothing below depends on more than
    its result being [None] or a string. *)
Class Env : Type := {
  World : Type;
  response : Type;
  session_get : str -> World -> result response * World;
  raise_for_status : response -> result unit;
  text : response -> str;
  html_events : str -> list NaobaijinTagParser.event * option exn;
  urlparse_netloc : str -> result str;
  _extract_title : str -> option str
}.

(** The fetcher's view of the world: the world itself, and the URLs that
    were passed to [session.get] so far, oldest first. *)
Record state `{Env} : Type := mkState {
  world : World;
  requests : list str
}.

(** The dictionary [fetch_tags] returns. *)
Record fetch_result : Type := mkResult {
  success : bool;
  tags : list str;
  error : option str;
  title : option str
}.

Definition msg_invalid_url : str :=
  [0x65E0; 0x6548; 0x7684; 0x7C7B; 0x8111; 0x8BBA; 0x575B;
   0x55; 0x52; 0x4C].

Definition msg_no_tags : str :=
  [0x672A; 0x627E; 0x5230; 0x6807; 0x7B7E].

Definition msg_not_found : str :=
  [0x672A; 0x627E; 0x5230; 0x6807; 0x7B7E; 0x4FE1; 0x606F; 0xFF0C;
   0x5E16; 0x5B50; 0x53EF; 0x80FD; 0x9700; 0x8981; 0x767B; 0x5F55;
   0x6216; 0x9875; 0x9762; 0x683C; 0x5F0F; 0x4E0D; 0x7B26].

Section Fetcher.
Context `{Env}.

Definition is_valid_naobaijin_url (url : str) : bool :=
  if negb (truthy_str url) then false
  else
    match urlparse_netloc url with
    | Ok netloc =>
        let domain := lower netloc in
        existsb (fun d => endswith domain d) NAOBAIJIN_DOMAINS
    | Raise _ => false
    end.

(** [self.session.get(url, ...)], recorded. *)
Definition get (url : str) (s : state) : result response * state :=
  let (r, w) := session_get url (world s) in
  (r, {| world := w; requests := requests s ++ [url] |}).

(** [parser.feed(html); parser.close()] on a fresh parser, then
    [parser.tags]: the handlers run over the callbacks, and the exception
    of the tokenizer, if there is one, follows them. *)
Definition feed_and_close (html : str) : result (list str) :=
  let (evs, tokenizer_error) := html_events html in
  rbind (NaobaijinTagParser.scan evs) (fun tags =>
  match tokenizer_error with
  | Some e => Raise e
  | None => Ok tags
  end).

(** The [try] block of [_try_fetch], after the request. *)
Definition parse_response (r : result response)
    : result (list str * option str) :=
  rbind r (fun resp =>
  rbind (raise_for_status resp) (fun _ =>
  rbind (feed_and_close (text resp)) (fun tags =>
  Ok (tags, _extract_title (text resp))))).

(** Returns the tuple [(tags, title, error)].  Both [except] clauses
    return [None, None, str(e)]; the second one is [except Exception]. *)
Definition _try_fetch (url : str) (s : state)
    : result (option (list str) * option str * option str) * state :=
  let (r, s) := get url s in
  (match parse_response r with
   | Ok ([], title) => Ok (None, title, Some msg_no_tags)
   | Ok (tags, title) => Ok (Some tags, title, None)
   | Raise e => except_Exception e (fun msg => (None, None, Some msg))
   end, s).

(** Truthiness of the first component of that tuple. *)
Definition truthy_tags (tags : option (list str)) : bool :=
  match tags with
  | Some (_ :: _) => true
  | _ => false
  end.

(** The list stored under ['tags'] on success. *)
Definition tags_value (tags : option (list str)) : list str :=
  match tags with
  | Some l => l
  | None => []
  end.

(** An exception that leaves [_try_fetch] leaves [fetch_tags] too. *)
Definition fetch_tags (url : str) (s : state)
    : result fetch_result * state :=
  if negb (is_valid_naobaijin_url url) then
    (Ok {| success := false; tags := [];
           error := Some msg_invalid_url; title := None |}, s)
  else
    let url := rstrip_char 0x2F url in
    let first_page_url := url ++ py "/0" in
    match _try_fetch first_page_url s with
    | (Raise e, s) => (Raise e, s)
    | (Ok (tags, title, error), s) =>
        if truthy_tags tags then
          (Ok {| success := true; tags := tags_value tags;
                 error := None; title := title |}, s)
        else
          match _try_fetch url s with
          | (Raise e, s) => (Raise e, s)
          | (Ok (tags, title2, error2), s) =>
              if truthy_tags tags then
                (Ok {| success := true; tags := tags_value tags;
                       error := None; title := py_or title2 title |}, s)
              else
                (Ok {| success := false; tags := [];
                       error := Some msg_not_found;
                       title := py_or title title2 |}, s)
          end
    end.

End Fetcher.

(** *** A model of the standard library's [urlsplit(url).netloc]

    This follows CPython's [urllib.parse.urlsplit]: leading C0 control
    characters and spaces are stripped, tab, CR and LF are removed, a
    leading scheme is split off, and when the rest starts with [//] the
    netloc runs up to the first of [/], [?], [#].  A netloc with one kind
    of square bracket only raises [ValueError].  The further checks
    CPython makes on a bracketed host and on a netloc with non-ASCII
    characters are not modelled; they are void for the ASCII, bracket-free
    URLs this function is evaluated on below. *)

Definition is_ascii_alpha (c : N) : bool :=
  ((0x41 <=? c) && (c <=? 0x5A)) || ((0x61 <=? c) && (c <=? 0x7A)).

Definition is_scheme_char (c : N) : bool :=
  is_ascii_alpha c || ((0x30 <=? c) && (c <=? 0x39))
  || (c =? 0x2B) || (c =? 0x2D) || (c =? 0x2E).

Fixpoint takewhile (p : N -> bool) (s : str) : str :=
  match s with
  | [] => []
  | c :: s' => if p c then c :: takewhile p s' else []
  end.

Definition split_scheme (url : str) : str :=
  match url with
  | c0 :: _ =>
      let head := takewhile (fun c => negb (c =? 0x3A)) url in
      if (length head <? length url)%nat && is_ascii_alpha c0
         && forallb is_scheme_char head
      then drop (S (length head)) url
      else url
  | [] => url
  end.

Definition is_netloc_end (c : N) : bool :=
  (c =? 0x2F) || (c =? 0x3F) || (c =? 0x23).

Definition has_char (c : N) (s : str) : bool := existsb (N.eqb c) s.

Definition urlsplit_netloc (url : str) : result str :=
  let url := dropwhile (fun c => c <=? 0x20) url in
  let url :=
    filter (fun c => negb ((c =? 0x09) || (c =? 0x0D) || (c =? 0x0A))) url in
  let url := split_scheme url in
  if startswith url (py "//") then
    let netloc := takewhile (fun c => negb (is_netloc_end c)) (drop 2 url) in
    if xorb (has_char 0x5B netloc) (has_char 0x5D netloc)
    then Raise (Exn ValueError (py "Invalid IPv6 URL"))
    else Ok netloc
  else Ok [].

(** *** The allow-list of the spec

    The spec's reading of the validation: the host equals an allow-list
    domain or is a subdomain of one, that is, ends with a dot followed by
    the domain. *)
Definition host_on_allow_list (host : str) : bool :=
  existsb (fun d => str_eqb host d || endswith host (py "." ++ d))
    NAOBAIJIN_DOMAINS.

End ForumTagFetcher.

(** ** [TagProcessor] *)

Module TagProcessor.

Record processor : Type := mkProcessor {
  exclude_tags : gset str;
  replace_rules : gmap str str
}.

(** [__init__(exclude_tags=None, replace_rules=None)] *)
Definition init (exclude_tags : option (list str))
    (replace_rules : option (gmap str str)) : processor :=
  {| exclude_tags := list_to_set (default [] exclude_tags);
     replace_rules := default ∅ replace_rules |}.

(** One turn of the loop of [process], on the accumulator [result]. *)
Definition process_step (self : processor) (result : list str) (tag : str)
    : list str :=
  if bool_decide (tag ∈ exclude_tags self) then result
  else
    let processed_tag := default tag (replace_rules self !! tag) in
    if bool_decide (processed_tag ∈ result) then result
    else result ++ [processed_tag].

Definition process (self : processor) (tags : list str) : list str :=
  foldl (process_step self) [] tags.

(** One turn of the loop of [merge_tags]. *)
Definition merge_step (merged : list str) (tag : str) : list str :=
  if bool_decide (tag ∈ merged) then merged else merged ++ [tag].

(** [list(existing_tags) if existing_tags else []], where [existing_tags]
    may be [None]. *)
Definition existing_list (existing_tags : option (list str)) : list str :=
  match existing_tags with
  | Some (t :: l) => t :: l
  | _ => []
  end.

Definition merge_tags (existing_tags : option (list str))
    (new_tags : list str) (mode : str) : list str :=
  if str_eqb mode (py "replace") then new_tags
  else
    let merged := existing_list existing_tags in
    foldl merge_step merged new_tags.

(** *** The specification of [process], in the spec's words

    Visit the tags in order; skip a tag of the exclude set, otherwise
    substitute it through the replace map (identity if absent); then keep
    the first occurrence of every value. *)

Definition visit (self : processor) (tag : str) : option str :=
  if bool_decide (tag ∈ exclude_tags self) then None
  else Some (default tag (replace_rules self !! tag)).

(** Order-preserving removal of repetitions: the first occurrence stays. *)
Fixpoint dedup_first (l : list str) : list str :=
  match l with
  | [] => []
  | x :: l' => x :: filter (fun y => y <> x) (dedup_first l')
  end.

Definition process_spec (self : processor) (tags : list str) : list str :=
  dedup_first (omap (visit self) tags).

End TagProcessor.

(** ** [automation_service]: the two hooks *)

Module AutomationService.

(** Values that come out of configuration, caches and the rule engine:
    JSON-like data (floats left out). *)
#[local] Unset Elimination Schemes.
Inductive pyval : Type :=
  | PNone
  | PBool (b : bool)
  | PInt (z : Z)
  | PStr (s : str)
  | PList (l : list pyval)
  | PDict (d : list (str * pyval)).
#[local] Set Elimination Schemes.

(** A [dict] with string keys. *)
Definition pydict : Type := list (str * pyval).

Definition truthy (v : pyval) : bool :=
  match v with
  | PNone => false
  | PBool b => b
  | PInt z => negb (z =? 0)%Z
  | PStr s => truthy_str s
  | PList l => match l with [] => false | _ => true end
  | PDict d => match d with [] => false | _ => true end
  end.

(** [d.get(key)], as an option. *)
Fixpoint dict_lookup (d : pydict) (key : str) : option pyval :=
  match d with
  | [] => None
  | (k, v) :: rest => if str_eqb k key then Some v else dict_lookup rest key
  end.

(** [d.get(key, dflt)] *)
Definition dict_get (d : pydict) (key : str) (dflt : pyval) : pyval :=
  default dflt (dict_lookup d key).

(** [d[key] = v] *)
Fixpoint dict_set (d : pydict) (key : str) (v : pyval) : pydict :=
  match d with
  | [] => [(key, v)]
  | (k, x) :: rest =>
      if str_eqb k key then (k, v) :: rest else (k, x) :: dict_set rest key v
  end.

(** [v.get(key, dflt)] on any value: only a [dict] has [get]. *)
Definition py_get (v : pyval) (key : str) (dflt : pyval) : result pyval :=
  match v with
  | PDict d => Ok (dict_get d key dflt)
  | _ => Raise (Exn AttributeError (py "object has no attribute 'get'"))
  end.

(** Equality of two hashable values ([True == 1], [False == 0]). *)
Definition hashable_eqb (a b : pyval) : bool :=
  match a, b with
  | PNone, PNone => true
  | PBool x, PBool y => bool_decide (x = y)
  | PInt x, PInt y => (x =? y)%Z
  | PBool x, PInt y | PInt y, PBool x => (y =? (if x then 1 else 0))%Z
  | PStr x, PStr y => str_eqb x y
  | _, _ => false
  end.

(** [s.add(v)] on a set, kept as a list without repetition; lists and
    dictionaries are unhashable. *)
Definition set_add (s : list pyval) (v : pyval) : result (list pyval) :=
  match v with
  | PList _ | PDict _ => Raise (Exn TypeError (py "unhashable type"))
  | _ => Ok (if existsb (hashable_eqb v) s then s else s ++ [v])
  end.

(** [str(v).lower() == 'true'].  [str] of [None], of an integer, of a list
    and of a dictionary are [None], a decimal numeral, and texts that
    start with a bracket or a brace. *)
Definition is_true_text (v : pyval) : bool :=
  match v with
  | PBool b => b
  | PStr s => str_eqb (lower s) (py "true")
  | _ => false
  end.

(** One evaluated rule action, [{'type': ..., 'value': ...}]. *)
Record action : Type := mkAction {
  act_type : str;
  act_value : pyval
}.

(** Modelled from the spec: the constant [ACT_FETCH_FORUM_TAGS] of
    [core/automation/constants.py], a file that is not among the sources.
    The spec's example action list, and the plan key of the same name,
    give its value. *)
Definition ACT_FETCH_FORUM_TAGS : str := py "fetch_forum_tags".

Record exec_plan : Type := mkPlan {
  move : pyval;
  add_tags : list pyval;
  remove_tags : list pyval;
  favorite : pyval;
  fetch_forum_tags : pyval
}.

(** The collaborators of the hooks, each in a world it may change, each
    free to raise. *)
Class Env : Type := {
  World : Type;
  ruleset : Type;
  load_config : World -> result pydict * World;
  get_ruleset : pyval -> World -> result (option ruleset) * World;
  cache_get : str -> World -> result (option pydict) * World;
  load_ui_data : World -> result pydict * World;
  resolve_ui_key : str -> World -> result str * World;
  evaluate : pydict -> ruleset -> bool -> World -> result (list action) * World;
  apply_plan : str -> exec_plan -> pydict -> World -> result pyval * World
}.

(** The world, and the calls made to [executor.apply_plan] so far. *)
Record state `{Env} : Type := mkState {
  world : World;
  applied : list (str * exec_plan * pydict)
}.

Section Hooks.
Context `{Env}.

(** Computations that read and change the state and may raise. *)
Definition M (A : Type) : Type := state -> result A * state.

Definition ret {A} (a : A) : M A := fun s => (Ok a, s).

Definition bind {A B} (m : M A) (k : A -> M B) : M B :=
  fun s =>
    match m s with
    | (Ok a, s') => k a s'
    | (Raise e, s') => (Raise e, s')
    end.

Notation "x <- m ;; k" := (bind m (fun x => k))
  (at level 100, m at next level, right associativity).

(** A pure step that may raise. *)
Definition lift {A} (r : result A) : M A := fun s => (r, s).

(** A collaborator call. *)
Definition call {A} (f : World -> result A * World) : M A :=
  fun s =>
    let (r, w) := f (world s) in
    (r, {| world := w; applied := applied s |}).

(** [executor.apply_plan(card_id, exec_plan, ui_data)], recorded. *)
Definition do_apply_plan (card_id : str) (p : exec_plan) (ui_data : pydict)
    : M pyval :=
  fun s =>
    let (r, w) := apply_plan card_id p ui_data (world s) in
    (r, {| world := w; applied := applied s ++ [(card_id, p, ui_data)] |}).

(** [try: body  except Exception as e: logger.error(f"...{e}"); return None] *)
Definition try_except (body : M pyval) : M pyval :=
  fun s =>
    match body s with
    | (Ok v, s') => (Ok v, s')
    | (Raise e, s') => (except_Exception e (fun _ => PNone), s')
    end.

Definition empty_plan : exec_plan :=
  {| move := PNone; add_tags := []; remove_tags := [];
     favorite := PNone; fetch_forum_tags := PNone |}.

(** The part both hooks share: from [load_config] to [engine.evaluate].
    [None] stands for an early [return None]; otherwise the evaluated
    actions and the UI data. *)
Definition prepare (card_id : str) : M (option (list action * pydict)) :=
  cfg <- call load_config ;;
  let active_id := dict_get cfg (py "active_automation_ruleset") PNone in
  if negb (truthy active_id) then ret None
  else
    ruleset <- call (get_ruleset active_id) ;;
    match ruleset with
    | None => ret None
    | Some ruleset =>
        card_obj <- call (cache_get card_id) ;;
        match card_obj with
        | None | Some [] => ret None
        | Some card_obj =>
            ui_data <- call load_ui_data ;;
            let context_data := card_obj in
            ui_key <- call (resolve_ui_key card_id) ;;
            let ui_info := dict_get ui_data ui_key (PDict []) in
            summary <- lift (py_get ui_info (py "summary") (PStr [])) ;;
            let context_data :=
              dict_set context_data (py "ui_summary") summary in
            actions <- call (evaluate context_data ruleset true) ;;
            ret (Some (actions, ui_data))
        end
    end.

Definition ret_no_actions : pyval :=
  PDict [(py "run", PBool true); (py "actions", PInt 0)].

Definition ret_no_fetch_action : pyval :=
  PDict [(py "run", PBool true); (py "actions", PInt 0);
         (py "reason", PStr (py "no_fetch_forum_tags_action"))].

Definition ret_result (res : pyval) : pyval :=
  PDict [(py "run", PBool true); (py "result", res)].

(** One turn of the loop that converts the actions into a plan. *)
Definition plan_step (p : exec_plan) (act : action) : result exec_plan :=
  let t := act_type act in
  let v := act_value act in
  if str_eqb t (py "move_folder") then
    Ok {| move := v; add_tags := add_tags p; remove_tags := remove_tags p;
          favorite := favorite p; fetch_forum_tags := fetch_forum_tags p |}
  else if str_eqb t (py "add_tag") then
    rbind (set_add (add_tags p) v) (fun s =>
    Ok {| move := move p; add_tags := s; remove_tags := remove_tags p;
          favorite := favorite p; fetch_forum_tags := fetch_forum_tags p |})
  else if str_eqb t (py "remove_tag") then
    rbind (set_add (remove_tags p) v) (fun s =>
    Ok {| move := move p; add_tags := add_tags p; remove_tags := s;
          favorite := favorite p; fetch_forum_tags := fetch_forum_tags p |})
  else if str_eqb t (py "set_favorite") then
    Ok {| move := move p; add_tags := add_tags p;
          remove_tags := remove_tags p;
          favorite := PBool (is_true_text v);
          fetch_forum_tags := fetch_forum_tags p |}
  else if str_eqb t ACT_FETCH_FORUM_TAGS then Ok p
  else Ok p.

Fixpoint build_plan (p : exec_plan) (actions : list action)
    : result exec_plan :=
  match actions with
  | [] => Ok p
  | act :: rest => rbind (plan_step p act) (fun p => build_plan p rest)
  end.

Definition auto_run_rules_on_card_body (card_id : str) : M pyval :=
  r <- prepare card_id ;;
  match r with
  | None => ret PNone
  | Some ([], _) => ret ret_no_actions
  | Some (actions, ui_data) =>
      exec_plan <- lift (build_plan empty_plan actions) ;;
      res <- do_apply_plan card_id exec_plan ui_data ;;
      ret (ret_result res)
  end.

Definition auto_run_rules_on_card (card_id : str) : M pyval :=
  try_except (auto_run_rules_on_card_body card_id).

(** The loop that looks for the first fetch action, up to its [break]. *)
Fixpoint extract_fetch_config (actions : list action) : pyval :=
  match actions with
  | [] => PNone
  | act :: rest =>
      if str_eqb (act_type act) ACT_FETCH_FORUM_TAGS then
        match act_value act with
        | PDict d => PDict d
        | _ => PDict []
        end
      else extract_fetch_config rest
  end.

Definition auto_run_forum_tags_on_link_update_body (card_id : str)
    : M pyval :=
  r <- prepare card_id ;;
  match r with
  | None => ret PNone
  | Some ([], _) => ret ret_no_actions
  | Some (actions, ui_data) =>
      let fetch_forum_tags_config := extract_fetch_config actions in
      if negb (truthy fetch_forum_tags_config) then ret ret_no_fetch_action
      else
        let exec_plan :=
          {| move := PNone; add_tags := []; remove_tags := [];
             favorite := PNone;
             fetch_forum_tags := fetch_forum_tags_config |} in
        res <- do_apply_plan card_id exec_plan ui_data ;;
        ret (ret_result res)
  end.

Definition auto_run_forum_tags_on_link_update (card_id : str) : M pyval :=
  try_except (auto_run_forum_tags_on_link_update_body card_id).

End Hooks.

End AutomationService.

(** ** Sample documents and stand-ins for the outside world *)

Module Samples.
Import NaobaijinTagParser.

Definition div (cls : string) : event :=
  StartTag (py "div") [(py "class", Some (py cls))].
Definition end_div : event := EndTag (py "div").

Definition main_cls : string := "tags_e5a45e".
Definition pill_cls : string := "pill_a2c9e8 small_a2c9e8 tagPill__9a337".
Definition badge_cls : string :=
  "pill_a2c9e8 small_a2c9e8 defaultColor__4bd52".

(** A pill opened inside an open pill. *)
Definition nested_pills : list event :=
  [ div main_cls; div pill_cls; Data (py " a");
    div pill_cls; Data (py "b "); end_div;
    Data (py "c"); end_div; end_div ].

(** The container marker met again inside the container. *)
Definition nested_containers : list event :=
  [ div main_cls; div "row"; div main_cls; end_div;
    div pill_cls; Data (py "late"); end_div; end_div; end_div ].

(** A well-formed page: two pills, one of them twice, and a count badge. *)
Definition page_events : list event :=
  [ div "sidebar tags__08166"; div pill_cls; Data (py "side"); end_div;
    end_div;
    div main_cls;
    div pill_cls; div "lineClamp1__4bd52"; Data (py " RPG "); end_div;
    end_div;
    div pill_cls; Data (py "RPG"); end_div;
    div badge_cls; Data (py "+1"); end_div;
    div pill_cls; Data (py "fantasy"); end_div;
    end_div ].

(** A world of canned pages: [pages url] is what a request for [url]
    gives, the body of the page or an exception.  The body ["<page>"]
    stands for a document with the callbacks [page_events]; any other body
    has no tags.  The title of a page is its body, when not empty. *)
Definition canned (pages : str -> result str) : ForumTagFetcher.Env :=
  {| ForumTagFetcher.World := unit;
     ForumTagFetcher.response := str;
     ForumTagFetcher.session_get := fun url w => (pages url, w);
     ForumTagFetcher.raise_for_status := fun _ => Ok tt;
     ForumTagFetcher.text := fun r => r;
     ForumTagFetcher.html_events :=
       fun t => (if str_eqb t (py "<page>") then page_events else [], None);
     ForumTagFetcher.urlparse_netloc := ForumTagFetcher.urlsplit_netloc;
     ForumTagFetcher._extract_title :=
       fun t => if truthy_str t then Some t else None |}.

Definition timeout : exn := Exn RequestException (py "Read timed out.").

(** No page answers. *)
Definition offline : str -> result str := fun _ => Raise timeout.

(** Only the bare thread URL has the tags; the [/0] form times out. *)
Definition bare_only : str -> result str :=
  fun url => if endswith url (py "/0") then Raise timeout
             else Ok (py "<page>").

Definition fresh (pages : str -> result str)
    : @ForumTagFetcher.state (canned pages) :=
  @ForumTagFetcher.mkState (canned pages) tt [].

(** Collaborators for the hooks: a configuration with an active rule set,
    a cache that knows every card, empty UI data, a rule engine that
    answers [evaluated] and an executor that answers [executed]. *)
Definition service (evaluated : result (list AutomationService.action))
    (executed : result AutomationService.pyval) : AutomationService.Env :=
  {| AutomationService.World := unit;
     AutomationService.ruleset := unit;
     AutomationService.load_config := fun w =>
       (Ok [(py "active_automation_ruleset",
             AutomationService.PStr (py "default"))], w);
     AutomationService.get_ruleset := fun _ w => (Ok (Some tt), w);
     AutomationService.cache_get := fun card_id w =>
       (Ok (Some [(py "id", AutomationService.PStr card_id)]), w);
     AutomationService.load_ui_data := fun w => (Ok [], w);
     AutomationService.resolve_ui_key := fun card_id w => (Ok card_id, w);
     AutomationService.evaluate := fun _ _ _ w => (evaluated, w);
     AutomationService.apply_plan := fun _ _ _ w => (executed, w) |}.

Definition idle (evaluated : result (list AutomationService.action))
    (executed : result AutomationService.pyval)
    : @AutomationService.state (service evaluated executed) :=
  @AutomationService.mkState (service evaluated executed) tt [].

Definition engine_down : exn := Exn OtherException (py "engine failure").

End Samples.

(** ** Documents, as the scanner sees them *)

Module Documents.
Import NaobaijinTagParser.

(** The class markers of [handle_starttag]. *)
Definition has_marker (class_attr : str) : bool :=
  contains (py "tags_e5a45e") class_attr.
Definition is_excluded (class_attr : str) : bool :=
  contains (py "defaultColor__4bd52") class_attr.

(** The value [class_attr] has in [handle_starttag], for the callbacks
    that reach its [div] branch. *)
Definition div_class (ev : event) : option (option str) :=
  match ev with
  | StartTag tag attrs | StartEndTag tag attrs =>
      if str_eqb tag (py "div") then Some (class_attr_of attrs) else None
  | _ => None
  end.

(** A [div] start tag with a class attribute that has no value. *)
Definition valueless_class (ev : event) : bool :=
  match div_class ev with
  | Some None => true
  | _ => false
  end.

(** A callback outside any [div] carrying the container marker: every
    callback but a [div] start tag whose class contains the marker or has
    no value. *)
Definition without_marker (ev : event) : bool :=
  match div_class ev with
  | Some (Some class_attr) => negb (has_marker class_attr)
  | Some None => false
  | None => true
  end.

(** The callbacks the handlers look at: [div] tags and text. *)
Definition relevant (ev : event) : bool :=
  match ev with
  | StartTag tag _ | EndTag tag | StartEndTag tag _ => str_eqb tag (py "div")
  | Data _ => true
  | Comment _ | Decl _ | Pi _ => false
  end.

(** What the counters and flags of a parser satisfy at any time. *)
Record consistent (self : parser) : Prop := {
  main_depth_in :
    in_main_tags_container self = true -> (1 <= main_container_depth self)%Z;
  main_depth_out :
    in_main_tags_container self = false -> main_container_depth self = 0%Z;
  pill_depth_in : in_tag_pill self = true -> (1 <= div_depth self)%Z;
  pill_depth_out : in_tag_pill self = false -> div_depth self = 0%Z;
  pill_text_out : in_tag_pill self = false -> current_tag_text self = []
}.

(** A tag as the scanner may emit it. *)
Definition clean_tag (t : str) : Prop :=
  t <> [] /\ startswith t (py "+") = false /\ strip t = t.

(** The parser with its [expecting_text] flag set to [e]. *)
Definition with_expecting (e : bool) (self : parser) : parser :=
  set_pill (in_tag_pill self) (div_depth self) e (current_tag_text self) self.

(** The text of the [Data] callbacks, in order. *)
Definition texts (evs : list event) : list str :=
  omap (fun ev => match ev with Data s => Some s | _ => None end) evs.

(** Content of an element that opens no pill and no container: text,
    callbacks the handlers ignore, and [div] elements, properly nested,
    whose class matches neither the pill pattern nor the container
    marker. *)
Inductive plain_content : list event -> Prop :=
  | plain_nil : plain_content []
  | plain_data s evs :
      plain_content evs -> plain_content (Data s :: evs)
  | plain_ignored ev evs :
      relevant ev = false ->
      plain_content evs -> plain_content (ev :: evs)
  | plain_div attrs class_attr inner evs :
      class_attr_of attrs = Some class_attr ->
      has_marker class_attr = false ->
      tag_class_pattern_search class_attr = false ->
      plain_content inner ->
      plain_content evs ->
      plain_content
        (StartTag (py "div") attrs :: inner ++ EndTag (py "div") :: evs).

(** The inside of the main container: pills, count badges, and plain
    elements around them, with the trimmed texts of the pills in document
    order. *)
Inductive container_body : list event -> list str -> Prop :=
  | body_nil : container_body [] []
  | body_data s evs ts :
      container_body evs ts -> container_body (Data s :: evs) ts
  | body_ignored ev evs ts :
      relevant ev = false ->
      container_body evs ts -> container_body (ev :: evs) ts
  | body_pill attrs class_attr content evs ts :
      class_attr_of attrs = Some class_attr ->
      has_marker class_attr = false ->
      tag_class_pattern_search class_attr = true ->
      is_excluded class_attr = false ->
      plain_content content ->
      container_body evs ts ->
      container_body
        (StartTag (py "div") attrs :: content ++ EndTag (py "div") :: evs)
        (strip (join (texts content)) :: ts)
  | body_badge attrs class_attr content evs ts :
      class_attr_of attrs = Some class_attr ->
      has_marker class_attr = false ->
      tag_class_pattern_search class_attr = true ->
      is_excluded class_attr = true ->
      plain_content content ->
      container_body evs ts ->
      container_body
        (StartTag (py "div") attrs :: content ++ EndTag (py "div") :: evs)
        ts
  | body_div attrs class_attr inner evs ts1 ts2 :
      class_attr_of attrs = Some class_attr ->
      has_marker class_attr = false ->
      tag_class_pattern_search class_attr = false ->
      container_body inner ts1 ->
      container_body evs ts2 ->
      container_body
        (StartTag (py "div") attrs :: inner ++ EndTag (py "div") :: evs)
        (ts1 ++ ts2).

(** A page with one main container: callbacks without the marker, the
    container, and callbacks without the marker again. *)
Inductive page : list event -> list str -> Prop :=
  | page_intro before attrs class_attr body after ts :
      forallb without_marker before = true ->
      class_attr_of attrs = Some class_attr ->
      has_marker class_attr = true ->
      tag_class_pattern_search class_attr = false ->
      container_body body ts ->
      forallb without_marker after = true ->
      page
        (before ++ StartTag (py "div") attrs :: body
                ++ EndTag (py "div") :: after)
        ts.

(** Whether the scanner keeps a trimmed pill text, apart from the test
    for repetition. *)
Definition keepable (t : str) : bool :=
  truthy_str t && negb (startswith t (py "+")).

(** What finalizing a pill with trimmed text [t] does to the tags. *)
Definition add_tag (tags : list str) (t : str) : list str :=
  if keepable t && negb (bool_decide (t ∈ tags)) then tags ++ [t] else tags.

End Documents.

(** ** [ForumTagFetcher._extract_title] *)

Module TitleExtraction.

(** The three patterns of [_extract_title], in its order: the [title]
    element, the [og:title] meta attribute, the first [h1] element. *)
Inductive title_pattern : Type :=
  | TitleElement
  | OgTitleMeta
  | FirstHeading.

Definition patterns : list title_pattern :=
  [TitleElement; OgTitleMeta; FirstHeading].

(** Index of the first [c] in [s]. *)
Fixpoint find_char (c : N) (s : str) : option nat :=
  match s with
  | [] => None
  | d :: s' => if d =? c then Some 0%nat else S <$> find_char c s'
  end.

(** [re.sub(r'<[^>]+>', '', s)], with [skip] characters of a match still
    to drop.  At a [<] the pattern matches when a [>] follows with at
    least one character in between, and then up to the first [>]. *)
Fixpoint remove_tags_aux (skip : nat) (s : str) : str :=
  match s with
  | [] => []
  | c :: s' =>
      match skip with
      | S k => remove_tags_aux k s'
      | O =>
          if c =? 0x3C then
            match find_char 0x3E s' with
            | Some (S j) => remove_tags_aux (S (S j)) s'
            | _ => c :: remove_tags_aux 0 s'
            end
          else c :: remove_tags_aux 0 s'
      end
  end.

Definition remove_tags (s : str) : str := remove_tags_aux 0 s.

(** [s.replace(old, new)] for a non-empty [old]: the occurrences of [old]
    are replaced from the left, without overlap. *)
Fixpoint replace_aux (old new : str) (skip : nat) (s : str) : str :=
  match s with
  | [] => []
  | c :: s' =>
      match skip with
      | S k => replace_aux old new k s'
      | O =>
          if startswith s old
          then new ++ replace_aux old new (length old - 1) s'
          else c :: replace_aux old new 0 s'
      end
  end.

Definition replace (old new s : str) : str := replace_aux old new 0 s.

(** What [_extract_title] does with group 1 of a match. *)
Definition clean_title (raw : str) : str :=
  let title := strip raw in
  let title := remove_tags title in
  replace (py "&gt;") (py ">")
    (replace (py "&lt;") (py "<")
       (replace (py "&amp;") (py "&")
          (replace (py "&quot;") [0x22] title))).

Section Extract.

(** [search p html] is group 1 of
    [re.search(pattern, html, re.IGNORECASE | re.DOTALL)] for the pattern
    [p], or [None] when the pattern does not match. *)
Variable search : title_pattern -> str -> option str.

(** The loop over the patterns. *)
Fixpoint first_title (ps : list title_pattern) (html : str) : option str :=
  match ps with
  | [] => None
  | p :: ps' =>
      match search p html with
      | Some raw =>
          let title := clean_title raw in
          if truthy_str title then Some title else first_title ps' html
      | None => first_title ps' html
      end
  end.

Definition _extract_title (html : str) : option str :=
  first_title patterns html.

End Extract.

End TitleExtraction.

(** ** Kinds of actions *)

Module Actions.
Import AutomationService.

Definition is_fetch_action (a : action) : bool :=
  str_eqb (act_type a) ACT_FETCH_FORUM_TAGS.

Definition is_move_action (a : action) : bool :=
  str_eqb (act_type a) (py "move_folder").

(** A value that cannot be a member of a set. *)
Definition unhashable (v : pyval) : bool :=
  match v with
  | PList _ | PDict _ => true
  | _ => false
  end.

(** An [add_tag] or [remove_tag] action whose value cannot go into the
    set of the plan. *)
Definition unhashable_tag_action (a : action) : bool :=
  (str_eqb (act_type a) (py "add_tag")
   || str_eqb (act_type a) (py "remove_tag"))
  && unhashable (act_value a).

(** The plan of the link-update hook. *)
Definition fetch_plan (config : pyval) : exec_plan :=
  {| move := PNone; add_tags := []; remove_tags := [];
     favorite := PNone; fetch_forum_tags := config |}.

(** What a hook does with the exception [e] that reaches its boundary,
    class by class: [None] is returned for an instance of [Exception],
    unless formatting it for the log raises, and then that exception
    reaches the caller; an exception that is no instance of [Exception]
    reaches the caller as it is. *)
Definition at_boundary (e : exn) : result pyval :=
  match exn_cls e with
  | KeyboardInterrupt | SystemExit | GeneratorExit | OtherBaseException =>
      Raise e
  | TypeError | ValueError | KeyError | AttributeError
  | RequestException | OtherException =>
      match exn_str_raises e with
      | None => Ok PNone
      | Some (cls, msg) => Raise (Exn cls msg)
      end
  end.

(** The outcome of a hook after what the executor did: its result,
    wrapped, or what the boundary makes of its exception. *)
Definition executor_answer (r : result pyval) : result pyval :=
  match r with
  | Ok res => Ok (ret_result res)
  | Raise e => at_boundary e
  end.

End Actions.

(** ** What one attempt of the fetcher meets *)

Module Attempts.
Import ForumTagFetcher.

Section Attempts.
Context `{Env}.

(** The attempt at [url] in the world [w] gets a page and leaves the world
    [w']: the request and the status check succeed, the tokenizer goes
    through the page, the scanner finds the tags [found], possibly none,
    and the title extraction gives [title]. *)
Definition gets_page (url : str) (w : World) (found : list str)
    (title : option str) (w' : World) : Prop :=
  exists resp evs,
    session_get url w = (Ok resp, w') /\
    raise_for_status resp = Ok tt /\
    html_events (text resp) = (evs, None) /\
    NaobaijinTagParser.scan evs = Ok found /\
    _extract_title (text resp) = title.

(** The exception [e] is raised while the page is parsed: by a handler of
    the scanner, or by the tokenizer after the callbacks it made. *)
Definition parsing_raises (html : str) (e : exn) : Prop :=
  exists evs tokenizer_error,
    html_events html = (evs, tokenizer_error) /\
    (NaobaijinTagParser.scan evs = Raise e \/
     ((exists found, NaobaijinTagParser.scan evs = Ok found) /\
      tokenizer_error = Some e)).

(** The exception [e] is raised in the [try] block of the attempt: by the
    request, by the status check, or while the page is parsed. *)
Definition raises (url : str) (w : World) (e : exn) (w' : World) : Prop :=
  session_get url w = (Raise e, w') \/
  exists resp,
    session_get url w = (Ok resp, w') /\
    (raise_for_status resp = Raise e \/
     (raise_for_status resp = Ok tt /\ parsing_raises (text resp) e)).

(** The attempt yields a tag sequence that is not empty, with the title of
    its page. *)
Definition yields_tags (url : str) (w : World) (found : list str)
    (title : option str) (w' : World) : Prop :=
  found <> [] /\ gets_page url w found title w'.

(** The attempt yields no tags: its page shows none, and [title] is the
    title of that page; or a failure was caught, an exception the
    handlers turn into the error text, and there is no title. *)
Definition yields_no_tags (url : str) (w : World) (title : option str)
    (w' : World) : Prop :=
  gets_page url w [] title w' \/
  (title = None /\ exists e, raises url w e w' /\ handled e = true).

End Attempts.

End Attempts.

(** ** Further sample data *)

Module MoreSamples.
Import NaobaijinTagParser Samples.

(** A sidebar with a pill, and no main container. *)
Definition sidebar_only : list event :=
  [ div "sidebar tags__08166"; div pill_cls; Data (py "side"); end_div;
    end_div ].

(** End tags without their start tags, before and after a container. *)
Definition unbalanced : list event :=
  [ end_div; div main_cls; div pill_cls; Data (py "x"); end_div; end_div;
    end_div; end_div ].

(** A page whose [title] element cleans to nothing and whose [og:title]
    holds an entity. *)
Definition sample_search (p : TitleExtraction.title_pattern) (html : str)
    : option str :=
  match p with
  | TitleExtraction.TitleElement => Some (py " <b></b> ")
  | TitleExtraction.OgTitleMeta => Some (py " Tom &amp; Jerry ")
  | TitleExtraction.FirstHeading => None
  end.

(** The collaborators of [Samples.service], with a configuration that
    names no active rule set. *)
Definition service_off : AutomationService.Env :=
  {| AutomationService.World := unit;
     AutomationService.ruleset := unit;
     AutomationService.load_config := fun w =>
       (Ok [(py "active_automation_ruleset", AutomationService.PNone)], w);
     AutomationService.get_ruleset := fun _ w => (Ok (Some tt), w);
     AutomationService.cache_get := fun card_id w =>
       (Ok (Some [(py "id", AutomationService.PStr card_id)]), w);
     AutomationService.load_ui_data := fun w => (Ok [], w);
     AutomationService.resolve_ui_key := fun card_id w => (Ok card_id, w);
     AutomationService.evaluate := fun _ _ _ w => (Ok [], w);
     AutomationService.apply_plan := fun _ _ _ w =>
       (Ok AutomationService.PNone, w) |}.

Definition tag_actions : list AutomationService.action :=
  [ AutomationService.mkAction (py "add_tag")
      (AutomationService.PStr (py "x"));
    AutomationService.mkAction (py "move_folder")
      (AutomationService.PStr (py "inbox"));
    AutomationService.mkAction (py "add_tag")
      (AutomationService.PStr (py "x"));
    AutomationService.mkAction (py "move_folder")
      (AutomationService.PStr (py "archive"));
    AutomationService.mkAction (py "remove_tag")
      (AutomationService.PStr (py "z")) ].

Definition fetch_config : AutomationService.pyval :=
  AutomationService.PDict
    [(py "merge_mode", AutomationService.PStr (py "merge"))].

(** A processor that excludes ["b"] and turns ["c"] into ["z"]. *)
Definition sample_processor : TagProcessor.processor :=
  TagProcessor.init (Some [py "b"]) (Some {[ py "c" := py "z" ]}).

(** What the tokenizer raises on the document ["<![x]>"]. *)
Definition unknown_section : exn :=
  Exn OtherException (py "unknown status keyword 'x' in marked section").

(** The world of [Samples.canned], except that no title is found in the
    page ["<page>"], and that the tokenizer stops at the body
    ["<![x]>"]. *)
Definition untitled (pages : str -> result str) : ForumTagFetcher.Env :=
  {| ForumTagFetcher.World := unit;
     ForumTagFetcher.response := str;
     ForumTagFetcher.session_get := fun url w => (pages url, w);
     ForumTagFetcher.raise_for_status := fun _ => Ok tt;
     ForumTagFetcher.text := fun r => r;
     ForumTagFetcher.html_events :=
       fun t => if str_eqb t (py "<page>") then (page_events, None)
                else if str_eqb t (py "<![x]>") then ([], Some unknown_section)
                else ([], None);
     ForumTagFetcher.urlparse_netloc := ForumTagFetcher.urlsplit_netloc;
     ForumTagFetcher._extract_title :=
       fun t => if str_eqb t (py "<page>") then None
                else if truthy_str t then Some t else None |}.

(** The [/0] form is a page titled ["Thread"] that shows no tags; the bare
    thread URL has the tags. *)
Definition tags_on_bare_page : str -> result str :=
  fun url => if endswith url (py "/0") then Ok (py "Thread")
             else Ok (py "<page>").

(** The [/0] form is the titled page without tags; the bare URL times
    out. *)
Definition title_on_first_page : str -> result str :=
  fun url => if endswith url (py "/0") then Ok (py "Thread")
             else Raise timeout.

(** Control-C, which is no instance of [Exception]. *)
Definition interrupt : exn := Exn KeyboardInterrupt [].

(** An exception of a class derived from [Exception] whose [__str__]
    raises. *)
Definition unprintable : exn :=
  mkExn OtherException [] (Some (TypeError, py "__str__ returned non-string")).

(** The [/0] form has markup the tokenizer stops at; the bare URL has the
    tags. *)
Definition broken_first_page : str -> result str :=
  fun url => if endswith url (py "/0") then Ok (py "<![x]>")
             else Ok (py "<page>").

(** The [/0] form is interrupted. *)
Definition interrupted : str -> result str :=
  fun url => if endswith url (py "/0") then Raise interrupt
             else Ok (py "<page>").

End MoreSamples.

(** * Properties *)

(** ** The scanner *)

Section Scanner.
Import NaobaijinTagParser Samples.

Implicit Types (self : parser) (attrs : list (str * option str)).

Lemma str_eqb_refl (s : str) : str_eqb s s = true.
Proof. unfold str_eqb. by apply bool_decide_eq_true. Qed.

(** What a [div] start tag does, given the string its class evaluates to. *)
Lemma handle_starttag_div self attrs class_attr :
  class_attr_of attrs = Some class_attr ->
  handle_starttag self (py "div") attrs =
  Ok (let self :=
        if contains (py "tags_e5a45e") class_attr then set_main true 1 self
        else if in_main_tags_container self
        then set_main true (main_container_depth self + 1) self
        else self in
      if in_main_tags_container self then
        if tag_class_pattern_search class_attr then
          if negb (contains (py "defaultColor__4bd52") class_attr)
          then set_pill true 1 true [] self
          else self
        else if in_tag_pill self then
          let self :=
            set_pill true (div_depth self + 1) (expecting_text self)
              (current_tag_text self) self in
          if expecting_text self
             && contains (py "lineClamp1__4bd52") class_attr
          then set_pill true (div_depth self) false
                 (current_tag_text self) self
          else self
        else self
      else self).
Proof.
  intros Hc. unfold handle_starttag.
  rewrite str_eqb_refl, Hc. reflexivity.
Qed.

(** C5 (amended).  On a [div] start tag whose class evaluates to a string:
    if the class contains the primary-container marker, the scanner is in
    the main container with depth 1 afterwards, from any state (so from
    OUTSIDE, and also when it was already inside, where the depth is set
    back to 1); if the class does not contain the marker and the scanner
    is in the main container, the depth grows by 1.  On a [div] end tag in
    the main container the depth shrinks by 1, and the scanner is outside
    afterwards exactly when the new depth is 0. *)
Theorem main_container_depth_tracking self attrs class_attr :
  class_attr_of attrs = Some class_attr ->
  (exists self', handle_starttag self (py "div") attrs = Ok self' /\
     (contains (py "tags_e5a45e") class_attr = true ->
        in_main_tags_container self' = true /\
        main_container_depth self' = 1%Z) /\
     (contains (py "tags_e5a45e") class_attr = false ->
      in_main_tags_container self = true ->
        in_main_tags_container self' = true /\
        main_container_depth self' = (main_container_depth self + 1)%Z)) /\
  (in_main_tags_container self = true ->
     let self' := handle_endtag self (py "div") in
     main_container_depth self' = (main_container_depth self - 1)%Z /\
     (in_main_tags_container self' = false <->
      main_container_depth self' = 0%Z)).
Proof.
  intros Hc. split.
  - eexists. split; [by apply handle_starttag_div|].
    split.
    + intros ->. cbn. by repeat case_match.
    + intros -> ->. cbn. by repeat case_match.
  - intros Hin. unfold handle_endtag. rewrite str_eqb_refl, Hin. cbn zeta.
    destruct (Z.eqb_spec (main_container_depth self - 1) 0) as [Hz|Hz];
      cbn; repeat case_match; cbn; split; try done; try (split; done).
Qed.

Lemma main_container_depth_tracking_witness :
  exists self',
    handle_starttag init (py "div") [(py "class", Some (py main_cls))]
      = Ok self' /\
    in_main_tags_container self' = true /\
    main_container_depth self' = 1%Z.
Proof.
  destruct (main_container_depth_tracking init
              [(py "class", Some (py main_cls))] (py main_cls) eq_refl)
    as [[self' [Hrun [Hmark _]]] _].
  exists self'. split; [exact Hrun|]. apply Hmark. reflexivity.
Defined.

(** C5, as claimed, fails: inside the container at depth 2, a [div] whose
    class again contains the marker leaves the depth at 1, not 3. *)
Lemma marker_again_resets_container_depth :
  exists self self',
    run init [div main_cls; div "row"] = Ok self /\
    in_main_tags_container self = true /\
    main_container_depth self = 2%Z /\
    handle_starttag self (py "div") [(py "class", Some (py main_cls))]
      = Ok self' /\
    main_container_depth self' = 1%Z /\
    main_container_depth self' <> (main_container_depth self + 1)%Z.
Proof.
  eexists. eexists.
  split; [vm_compute; reflexivity|].
  split; [reflexivity|]. split; [reflexivity|].
  split; [vm_compute; reflexivity|].
  split; [reflexivity|]. discriminate.
Qed.

Lemma pill_kept_test self :
  truthy_str (pill_text self)
  && negb (startswith (pill_text self) (py "+"))
  && negb (bool_decide (pill_text self ∈ tags self)) = true <-> pill_kept self.
Proof.
  unfold pill_kept.
  rewrite !andb_true_iff, !negb_true_iff, bool_decide_eq_false.
  destruct (pill_text self); cbn; intuition congruence.
Qed.

(** What a [div] end tag does to an open pill. *)
Lemma handle_endtag_pill self :
  in_tag_pill self = true ->
  let self' := handle_endtag self (py "div") in
  div_depth self' = (div_depth self - 1)%Z /\
  (div_depth self' <> 0%Z ->
     in_tag_pill self' = true /\ tags self' = tags self /\
     current_tag_text self' = current_tag_text self) /\
  (div_depth self' = 0%Z ->
     in_tag_pill self' = false /\ current_tag_text self' = [] /\
     (pill_kept self -> tags self' = tags self ++ [pill_text self]) /\
     (~ pill_kept self -> tags self' = tags self)).
Proof.
  intros Hp. unfold handle_endtag. rewrite str_eqb_refl. cbn zeta.
  set (self1 := if in_main_tags_container self then _ else self).
  assert (H1 : in_tag_pill self1 = in_tag_pill self /\
               tags self1 = tags self /\
               current_tag_text self1 = current_tag_text self /\
               div_depth self1 = div_depth self).
  { subst self1. by repeat case_match. }
  destruct H1 as (E1 & E2 & E3 & E4).
  assert (Ek : pill_kept self1 <-> pill_kept self).
  { unfold pill_kept, pill_text. by rewrite E2, E3. }
  assert (Et : pill_text self1 = pill_text self).
  { unfold pill_text. by rewrite E3. }
  rewrite E1, Hp.
  fold (pill_text self1).
  destruct (Z.eqb_spec (div_depth self1 - 1) 0) as [Hz|Hz].
  - destruct (truthy_str (pill_text self1)
              && negb (startswith (pill_text self1) (py "+"))
              && negb (bool_decide (pill_text self1 ∈ tags self1))) eqn:Hk.
    + apply pill_kept_test in Hk. cbn.
      repeat split; try done; try lia.
      * intros _. by rewrite E2, Et.
      * intros Hn. apply Ek in Hk. contradiction.
    + assert (~ pill_kept self1) as Hn.
      { intros Hk'. apply pill_kept_test in Hk'. congruence. }
      cbn. repeat split; try done; try lia.
      intros Hk'. apply Ek in Hk'. contradiction.
  - cbn. repeat split; try done; try lia.
Qed.

(** C1 (amended).  In the main container, a [div] start tag whose class
    matches the pill pattern and lacks the exclusion marker enters IN_PILL
    with nested depth 1 and an empty text buffer, whether or not the
    scanner was already IN_PILL.  While IN_PILL and in the main container,
    a [div] start tag whose class does not match the pill pattern raises
    the nested depth by 1.  While IN_PILL, every [div] end tag lowers the
    nested depth by 1; when it reaches 0 the pill is finalized: the
    scanner leaves IN_PILL, and the trimmed text is appended to the tags
    if and only if it is non-empty, does not start with [+] and is not
    among the tags yet. *)
Theorem pill_depth_tracking self attrs class_attr :
  class_attr_of attrs = Some class_attr ->
  (exists self', handle_starttag self (py "div") attrs = Ok self' /\
     (in_main_tags_container self' = true ->
      tag_class_pattern_search class_attr = true ->
      contains (py "defaultColor__4bd52") class_attr = false ->
        in_tag_pill self' = true /\ div_depth self' = 1%Z /\
        current_tag_text self' = [] /\ tags self' = tags self) /\
     (in_tag_pill self = true ->
      in_main_tags_container self' = true ->
      tag_class_pattern_search class_attr = false ->
        in_tag_pill self' = true /\
        div_depth self' = (div_depth self + 1)%Z /\
        current_tag_text self' = current_tag_text self /\
        tags self' = tags self)) /\
  (in_tag_pill self = true ->
   let self' := handle_endtag self (py "div") in
   div_depth self' = (div_depth self - 1)%Z /\
   (div_depth self' <> 0%Z ->
      in_tag_pill self' = true /\ tags self' = tags self /\
      current_tag_text self' = current_tag_text self) /\
   (div_depth self' = 0%Z ->
      in_tag_pill self' = false /\ current_tag_text self' = [] /\
      (pill_kept self -> tags self' = tags self ++ [pill_text self]) /\
      (~ pill_kept self -> tags self' = tags self))).
Proof.
  intros Hc. split; [|apply handle_endtag_pill].
  eexists. split; [by apply handle_starttag_div|].
  cbn zeta.
  set (self1 := if contains (py "tags_e5a45e") class_attr then _ else _).
  assert (H1 : in_tag_pill self1 = in_tag_pill self /\
               tags self1 = tags self /\
               current_tag_text self1 = current_tag_text self /\
               div_depth self1 = div_depth self).
  { subst self1. by repeat case_match. }
  destruct H1 as (E1 & E2 & E3 & E4).
  destruct (in_main_tags_container self1) eqn:Hm.
  - split.
    + intros _ -> ->. cbn. done.
    + intros Hp _ ->. rewrite E1, Hp.
      cbn. case_match; cbn; repeat split; congruence.
  - split.
    + rewrite Hm. discriminate.
    + rewrite Hm. discriminate.
Qed.

Lemma pill_depth_tracking_witness :
  exists self',
    handle_starttag (set_main true 1 init) (py "div")
      [(py "class", Some (py pill_cls))] = Ok self' /\
    in_tag_pill self' = true /\ div_depth self' = 1%Z.
Proof.
  destruct (pill_depth_tracking (set_main true 1 init)
              [(py "class", Some (py pill_cls))] (py pill_cls) eq_refl)
    as [[self' [Hrun [Henter _]]] _].
  exists self'. split; [exact Hrun|].
  vm_compute in Hrun. injection Hrun as <-.
  destruct Henter as (? & ? & _); [reflexivity..|]. by split.
Defined.

(** C1, as claimed, fails: a [div] with the pill class that opens inside
    an open pill enters IN_PILL again.  The nested depth stays at 1
    instead of becoming 2, and the text collected so far is dropped. *)
Lemma pill_reentered_while_in_pill :
  exists self self',
    run init [div main_cls; div pill_cls; Data (py " a")] = Ok self /\
    in_tag_pill self = true /\
    div_depth self = 1%Z /\
    current_tag_text self = [py " a"] /\
    handle_starttag self (py "div") [(py "class", Some (py pill_cls))]
      = Ok self' /\
    div_depth self' = 1%Z /\
    current_tag_text self' = [] /\
    div_depth self' <> (div_depth self + 1)%Z.
Proof.
  eexists. eexists.
  split; [vm_compute; reflexivity|].
  do 3 (split; [reflexivity|]).
  split; [vm_compute; reflexivity|].
  do 2 (split; [reflexivity|]). discriminate.
Qed.

(** The whole document: the inner pill is the one that is finalized. *)
Example scan_nested_pills : scan nested_pills = Ok [py "b"].
Proof. vm_compute. reflexivity. Qed.

Example scan_nested_containers : scan nested_containers = Ok [].
Proof. vm_compute. reflexivity. Qed.

Example scan_page : scan page_events = Ok [py "RPG"; py "fantasy"].
Proof. vm_compute. reflexivity. Qed.

(** A class attribute without a value makes the start handler raise. *)
Example scan_valueless_class :
  exists e,
    scan [div main_cls; StartTag (py "div") [(py "class", None)]] = Raise e
    /\ exn_cls e = TypeError.
Proof. eexists. split; [vm_compute; reflexivity|reflexivity]. Qed.

(** *** The tags only grow, at the end, by a new element *)

Lemma handle_starttag_tags self tag attrs self' :
  handle_starttag self tag attrs = Ok self' -> tags self' = tags self.
Proof.
  unfold handle_starttag. intros Hh.
  repeat case_match; simplify_eq; reflexivity.
Qed.

Lemma handle_endtag_tags self tag :
  tags (handle_endtag self tag) = tags self \/
  exists t, (t ∉ tags self) /\ tags (handle_endtag self tag) = tags self ++ [t].
Proof.
  unfold handle_endtag.
  destruct (str_eqb tag (py "div")); [|by left]. cbn zeta.
  set (self1 := if in_main_tags_container self then _ else self).
  assert (E2 : tags self1 = tags self) by (subst self1; by repeat case_match).
  rewrite <- E2. clearbody self1.
  destruct (in_tag_pill self1); [|by left].
  destruct (_ =? _)%Z; [|by left].
  fold (pill_text self1).
  destruct (_ && _ && _) eqn:Hk; [|by left].
  apply pill_kept_test in Hk as (_ & _ & Hnew).
  right. exists (pill_text self1). by split.
Qed.

Lemma handle_tags self ev self' :
  handle self ev = Ok self' ->
  tags self' = tags self \/
  exists t, (t ∉ tags self) /\ tags self' = tags self ++ [t].
Proof.
  destruct ev; cbn; intros Hh; simplify_eq; try by left.
  - left. by eapply handle_starttag_tags.
  - apply handle_endtag_tags.
  - destruct (handle_starttag self tag attrs) as [self1|] eqn:Hs;
      cbn in Hh; simplify_eq.
    rewrite <- (handle_starttag_tags _ _ _ _ Hs).
    apply handle_endtag_tags.
  - left. unfold handle_data. by case_match.
Qed.

Lemma run_tags_NoDup evs : forall self self',
  run self evs = Ok self' ->
  NoDup (tags self) ->
  NoDup (tags self') /\ tags self `prefix_of` tags self'.
Proof.
  induction evs as [|ev evs IH]; cbn; intros self self' Hr Hnd.
  - by simplify_eq.
  - destruct (handle self ev) as [self1|] eqn:Hh; cbn in Hr; [|done].
    assert (NoDup (tags self1) /\ tags self `prefix_of` tags self1)
      as [Hnd1 Hpre1].
    { destruct (handle_tags _ _ _ Hh) as [->|(t & Hnew & ->)]; [done|].
      split; [|by apply prefix_app_r].
      apply NoDup_app. repeat split; [done| |apply NoDup_singleton].
      intros x Hx ->%list_elem_of_singleton. done. }
    destruct (IH _ _ Hr Hnd1) as [Hnd' Hpre'].
    split; [done|]. by etrans.
Qed.

End Scanner.

(** ** The tag processor *)

Section Processor.
Import TagProcessor.

Implicit Types (self : processor) (l acc : list str) (x t : str).

Lemma filter_all (P : str -> Prop) `{!forall x, Decision (P x)} l :
  (forall x, x ∈ l -> P x) -> filter P l = l.
Proof.
  induction l as [|y l IH]; intros Hall; [done|].
  rewrite filter_cons, decide_True by (apply Hall; left).
  f_equal. apply IH. intros x Hx. apply Hall. by right.
Qed.

Lemma dedup_first_elem_of l x : x ∈ dedup_first l <-> x ∈ l.
Proof.
  induction l as [|y l IH]; cbn; [done|].
  rewrite !elem_of_cons, list_elem_of_filter, IH.
  destruct (decide (x = y)); tauto.
Qed.

Lemma dedup_first_NoDup l : NoDup (dedup_first l).
Proof.
  induction l as [|y l IH]; cbn; [constructor|].
  constructor; [|by apply NoDup_filter].
  rewrite list_elem_of_filter. tauto.
Qed.

Lemma dedup_first_sublist l : dedup_first l `sublist_of` l.
Proof.
  induction l as [|y l IH]; cbn; [done|].
  apply sublist_skip. etrans; [apply sublist_filter|done].
Qed.

Lemma dedup_first_filter (P : str -> Prop) `{!forall x, Decision (P x)} l :
  dedup_first (filter P l) = filter P (dedup_first l).
Proof.
  induction l as [|y l IH]; [done|].
  rewrite filter_cons. cbn [dedup_first]. rewrite filter_cons.
  destruct (decide (P y)) as [Hy|Hy]; cbn [dedup_first].
  - rewrite IH. f_equal. rewrite !list_filter_filter.
    apply list_filter_iff. tauto.
  - rewrite IH, list_filter_filter.
    apply list_filter_iff. intros x. split; [|tauto].
    intros HP. split; [done|]. by intros ->.
Qed.

Lemma dedup_first_NoDup_id l : NoDup l -> dedup_first l = l.
Proof.
  induction 1 as [|x l Hx Hnd IH]; cbn; [done|].
  rewrite IH. f_equal. apply filter_all.
  intros y Hy ->. done.
Qed.

(** The loop of [merge_tags]: what is already there stays in front, and the
    new elements follow, each once, in the order of their first
    occurrence. *)
Lemma foldl_merge_step l : forall acc,
  foldl merge_step acc l = acc ++ dedup_first (filter (fun x => x ∉ acc) l).
Proof.
  induction l as [|x l IH]; intros acc; cbn [foldl].
  - cbn. by rewrite app_nil_r.
  - rewrite IH, filter_cons. unfold merge_step.
    destruct (decide (x ∈ acc)) as [Hx|Hx].
    + rewrite bool_decide_eq_true_2 by done.
      destruct (decide (x ∉ acc)); done.
    + rewrite bool_decide_eq_false_2 by done.
      destruct (decide (x ∉ acc)); [|done]. cbn [dedup_first].
      rewrite <- app_assoc. cbn [app]. do 2 f_equal.
      rewrite <- dedup_first_filter, list_filter_filter.
      f_equal. apply list_filter_iff. intros y.
      rewrite elem_of_app, list_elem_of_singleton. tauto.
Qed.

Lemma foldl_process_step self tags : forall acc,
  foldl (process_step self) acc tags
  = foldl merge_step acc (omap (visit self) tags).
Proof.
  induction tags as [|tag tags IH]; intros acc; cbn; [done|].
  rewrite IH. unfold process_step, visit, merge_step.
  destruct (bool_decide (tag ∈ exclude_tags self)); reflexivity.
Qed.

Lemma process_refines_spec self tags :
  process self tags = process_spec self tags.
Proof.
  unfold process, process_spec.
  rewrite foldl_process_step, foldl_merge_step. cbn [app].
  f_equal. apply filter_all. intros x _. apply not_elem_of_nil.
Qed.

(** C7.  [process] visits the tags in order, skips the excluded ones,
    substitutes the others through the replace map, and keeps the first
    occurrence of every post-substitution value: it is the
    order-preserving deduplication of these values, which has no
    repetition, has exactly the visited values as elements, and is a
    subsequence of them.  And
    [process(["a","b","c"], exclude={"b"}, replace={"c":"z"})] is
    [["a","z"]]. *)
Theorem process_is_ordered_dedup :
  (forall self tags,
     process self tags = process_spec self tags /\
     NoDup (process self tags) /\
     (forall t, t ∈ process self tags <-> t ∈ omap (visit self) tags) /\
     process self tags `sublist_of` omap (visit self) tags) /\
  process (init (Some [py "b"]) (Some {[ py "c" := py "z" ]}))
    [py "a"; py "b"; py "c"] = [py "a"; py "z"].
Proof.
  split; [|vm_compute; reflexivity].
  intros self tags. rewrite process_refines_spec. unfold process_spec.
  split; [done|]. split; [apply dedup_first_NoDup|].
  split; [intros t; apply dedup_first_elem_of|apply dedup_first_sublist].
Qed.

Lemma merge_tags_replace existing_tags new_tags :
  merge_tags existing_tags new_tags (py "replace") = new_tags.
Proof. reflexivity. Qed.

Lemma merge_tags_merge existing_tags new_tags mode :
  mode <> py "replace" ->
  merge_tags existing_tags new_tags mode =
  existing_list existing_tags
  ++ dedup_first (filter (fun t => t ∉ existing_list existing_tags) new_tags).
Proof.
  intros Hmode. unfold merge_tags, str_eqb.
  rewrite bool_decide_eq_false_2 by done.
  apply foldl_merge_step.
Qed.

End Processor.

(** ** Tag lists have no repetition *)

Section TagLists.
Import NaobaijinTagParser TagProcessor.

(** C6 (amended).  The tags of the scanner, after any sequence of
    callbacks, have no repetition, and so has the result of [process], for
    every input.  [merge_tags] in mode [replace] returns [new_tags] as it
    is.  In any other mode it returns the existing tags followed by the
    new tags that are not among them, each once, in the order of their
    first occurrence; this has no repetition whenever the existing tags
    have none. *)
Theorem tag_lists_without_repetition :
  (forall evs ts, scan evs = Ok ts -> NoDup ts) /\
  (forall self tags, NoDup (process self tags)) /\
  (forall existing_tags new_tags,
     merge_tags existing_tags new_tags (py "replace") = new_tags) /\
  (forall existing_tags new_tags mode,
     mode <> py "replace" ->
     merge_tags existing_tags new_tags mode =
       existing_list existing_tags
       ++ dedup_first
            (filter (fun t => t ∉ existing_list existing_tags) new_tags) /\
     (NoDup (existing_list existing_tags) ->
      NoDup (merge_tags existing_tags new_tags mode))).
Proof.
  split; [|split; [|split]].
  - intros evs ts. unfold scan.
    destruct (run NaobaijinTagParser.init evs) as [self'|] eqn:Hr; cbn; [|done].
    intros [= <-]. eapply run_tags_NoDup; [exact Hr|constructor].
  - intros self tags. rewrite process_refines_spec.
    apply dedup_first_NoDup.
  - apply merge_tags_replace.
  - intros existing_tags new_tags mode Hmode.
    rewrite merge_tags_merge by done. split; [done|].
    intros Hnd. apply NoDup_app. split; [done|].
    split; [|apply dedup_first_NoDup].
    intros x Hx Hx'%dedup_first_elem_of%list_elem_of_filter. tauto.
Qed.

Lemma tag_lists_without_repetition_witness :
  scan Samples.page_events = Ok [py "RPG"; py "fantasy"] /\
  NoDup [py "RPG"; py "fantasy"] /\
  NoDup (merge_tags (Some [py "a"; py "b"]) [py "b"; py "c"; py "c"]
           (py "merge")) /\
  merge_tags (Some [py "a"; py "b"]) [py "b"; py "c"; py "c"] (py "merge")
  = [py "a"; py "b"; py "c"].
Proof.
  destruct tag_lists_without_repetition as (Hscan & _ & _ & Hmerge).
  assert (Hp : scan Samples.page_events = Ok [py "RPG"; py "fantasy"])
    by (vm_compute; reflexivity).
  split; [exact Hp|]. split; [exact (Hscan _ _ Hp)|].
  split; [|vm_compute; reflexivity].
  apply (Hmerge (Some [py "a"; py "b"]) [py "b"; py "c"; py "c"] (py "merge")).
  - vm_compute. discriminate.
  - cbn [existing_list]. refine (bool_decide_unpack _ _). vm_compute. exact I.
Defined.

(** C6, as claimed, fails for [merge_tags]: mode [replace] hands back a
    repetition of [new_tags]. *)
Lemma merge_tags_replace_keeps_repetition :
  merge_tags (Some [py "a"]) [py "x"; py "x"] (py "replace")
    = [py "x"; py "x"] /\
  ~ NoDup (merge_tags (Some [py "a"]) [py "x"; py "x"] (py "replace")).
Proof.
  split; [reflexivity|].
  rewrite merge_tags_replace. intros Hnd.
  apply NoDup_cons in Hnd as [Hx _]. apply Hx. left.
Qed.

End TagLists.

(** ** The fetcher *)

Section FetcherProperties.
Import ForumTagFetcher Attempts.
Context `{Env}.

Implicit Types (url : str) (s : state).

Lemma startswith_spec (s p : str) :
  startswith s p = true <-> exists t, s = p ++ t.
Proof.
  revert s. induction p as [|c p IH]; intros s; cbn.
  - split; [intros _; by exists s|done].
  - destruct s as [|d s].
    + split; [done|]. by intros [t Ht].
    + rewrite andb_true_iff, N.eqb_eq, IH. split.
      * intros [-> [t ->]]. by exists t.
      * intros [t [= -> ->]]. split; [done|]. by exists t.
Qed.

Lemma endswith_spec (s p : str) :
  endswith s p = true <-> exists t, s = t ++ p.
Proof.
  unfold endswith. rewrite startswith_spec. split.
  - intros [t Ht]. exists (rev t).
    apply (f_equal (@rev N)) in Ht. rewrite rev_involutive in Ht.
    by rewrite Ht, rev_app_distr, rev_involutive.
  - intros [t ->]. exists (rev t). by rewrite rev_app_distr.
Qed.

Lemma dropwhile_spec (p : N -> bool) (l : str) :
  exists junk, l = junk ++ dropwhile p l /\
    forallb p junk = true /\
    match dropwhile p l with [] => True | c :: _ => p c = false end.
Proof.
  induction l as [|c l (junk & Hl & Hj & Hd)]; cbn.
  - by exists [].
  - destruct (p c) eqn:Hc.
    + exists (c :: junk). cbn. rewrite Hc, Hj. split; [by f_equal|done].
    + exists []. done.
Qed.

(** [url.rstrip('/')] takes a run of slashes off the end and leaves no
    slash there. *)
Lemma rstrip_slash url :
  (exists n, url = rstrip_char 0x2F url ++ replicate n 0x2F) /\
  endswith (rstrip_char 0x2F url) (py "/") = false.
Proof.
  unfold rstrip_char, endswith.
  destruct (dropwhile_spec (N.eqb 0x2F) (rev url)) as (junk & Hl & Hj & Hd).
  split.
  - exists (length junk).
    apply (f_equal (@rev N)) in Hl. rewrite rev_involutive, rev_app_distr in Hl.
    rewrite Hl at 1. f_equal.
    clear -Hj. induction junk as [|c junk IH]; [done|].
    cbn [forallb] in Hj. apply andb_true_iff in Hj as [Hc Hj].
    apply N.eqb_eq in Hc as <-.
    cbn [rev length]. rewrite IH by done.
    clear. induction (length junk) as [|n IHn]; [done|].
    cbn. by rewrite IHn.
  - rewrite rev_involutive.
    destruct (dropwhile (N.eqb 0x2F) (rev url)) as [|c l]; [done|].
    cbn [py rev startswith list_ascii_of_string map app].
    change (N_of_ascii "/") with 0x2F. by rewrite Hd.
Qed.

(** *** Validation *)

(** What the validation computes: the URL is not empty, [urlparse] does not
    raise, and the lower-cased netloc ends with [naobaijin.app] (the
    second domain of the list ends with the first). *)
Lemma is_valid_naobaijin_url_spec url :
  is_valid_naobaijin_url url = true <->
  url <> [] /\
  exists netloc front,
    urlparse_netloc url = Ok netloc /\
    lower netloc = front ++ py "naobaijin.app".
Proof.
  unfold is_valid_naobaijin_url.
  destruct url as [|c url]; cbn [truthy_str negb].
  { split; [done|]. by intros [? _]. }
  destruct (urlparse_netloc (c :: url)) as [netloc|e].
  - cbn [existsb NAOBAIJIN_DOMAINS]. rewrite orb_false_r, orb_true_iff.
    rewrite !endswith_spec. split.
    + intros [[t Ht]|[t Ht]]; (split; [done|]); exists netloc.
      * by exists t.
      * exists (t ++ py "www."). split; [done|].
        by rewrite Ht, <- app_assoc.
    + intros [_ (netloc' & t & [= <-] & Ht)]. left. by exists t.
  - split; [done|]. by intros [_ (? & ? & ? & _)].
Qed.

(** *** The [except Exception] clause *)

Lemma except_Exception_handled {A} (e : exn) (k : str -> A) :
  handled e = true -> except_Exception e k = Ok (k (exn_msg e)).
Proof.
  unfold handled, except_Exception, str_exn.
  destruct (is_Exception (exn_cls e)); [|done].
  by destruct (exn_str_raises e).
Qed.

Lemma except_Exception_raises {A} (e e' : exn) (k : str -> A) :
  except_Exception e k = Raise e' -> handled e = false /\ lets_through e e'.
Proof.
  unfold handled, except_Exception, str_exn, lets_through.
  destruct (is_Exception (exn_cls e)) eqn:Hc; cbn.
  - destruct (exn_str_raises e) as [[cls msg]|] eqn:Hs; cbn; [|done].
    intros [= <-]. split; [done|]. right. split; [done|]. by exists cls, msg.
  - intros [= <-]. split; [done|]. by left.
Qed.

(** *** One attempt *)

Lemma try_fetch_requests url s :
  requests (_try_fetch url s).2 = requests s ++ [url].
Proof.
  unfold _try_fetch, get.
  by destruct (session_get url (world s)) as [r w].
Qed.

(** An attempt that gets a page returns its tags, or none with the fixed
    text when the page shows none, and in both cases its title. *)
Lemma try_fetch_page url s found title w' :
  gets_page url (world s) found title w' ->
  _try_fetch url s =
    (Ok (match found with
         | [] => (None, title, Some msg_no_tags)
         | _ :: _ => (Some found, title, None)
         end),
     {| world := w'; requests := requests s ++ [url] |}).
Proof.
  intros (resp & evs & Hget & Hst & Hev & Hscan & <-).
  unfold _try_fetch, get, parse_response, feed_and_close.
  rewrite Hget. cbn [rbind]. rewrite Hst. cbn [rbind]. rewrite Hev, Hscan.
  cbn [rbind]. by destruct found.
Qed.

(** An exception raised in the [try] block meets the [except] clauses. *)
Lemma try_fetch_raises url s e w' :
  raises url (world s) e w' ->
  _try_fetch url s =
    (except_Exception e (fun msg => (None, None, Some msg)),
     {| world := w'; requests := requests s ++ [url] |}).
Proof.
  unfold _try_fetch, get, parse_response, feed_and_close.
  intros [Hget|(resp & Hget & [Hst|[Hst (evs & tok & Hev & Hp)]])];
    rewrite Hget; cbn [rbind].
  - done.
  - by rewrite Hst.
  - rewrite Hst. cbn [rbind]. rewrite Hev.
    destruct Hp as [Hscan|[[found Hscan] ->]]; by rewrite Hscan.
Qed.

(** Every attempt gets a page or sees an exception in its [try] block. *)
Lemma try_fetch_cases url s :
  (exists found title w', gets_page url (world s) found title w') \/
  (exists e w', raises url (world s) e w').
Proof.
  unfold gets_page, raises, parsing_raises.
  destruct (session_get url (world s)) as [[resp|e] w'] eqn:Hget.
  2: { right. exists e, w'. by left. }
  destruct (raise_for_status resp) as [[]|e] eqn:Hst.
  2: { right. exists e, w'. right. exists resp. split; [done|]. by left. }
  destruct (html_events (text resp)) as [evs tok] eqn:Hev.
  destruct (NaobaijinTagParser.scan evs) as [found|e] eqn:Hscan.
  - destruct tok as [e|].
    + right. exists e, w'. right. exists resp. split; [done|]. right.
      split; [done|]. exists evs, (Some e). split; [done|]. right.
      split; [by exists found|done].
    + left. exists found, (_extract_title (text resp)), w', resp, evs. done.
  - right. exists e, w'. right. exists resp. split; [done|]. right.
    split; [done|]. exists evs, tok. split; [done|]. by left.
Qed.

Lemma try_fetch_yields_tags url s found title w' :
  yields_tags url (world s) found title w' ->
  _try_fetch url s =
    (Ok (Some found, title, None),
     {| world := w'; requests := requests s ++ [url] |}).
Proof.
  intros [Hne Hp]. rewrite (try_fetch_page _ _ _ _ _ Hp).
  by destruct found.
Qed.

Lemma try_fetch_yields_no_tags url s title w' :
  yields_no_tags url (world s) title w' ->
  exists error,
    _try_fetch url s =
      (Ok (None, title, Some error),
       {| world := w'; requests := requests s ++ [url] |}).
Proof.
  intros [Hp|(-> & e & He & Hh)].
  - exists msg_no_tags. by rewrite (try_fetch_page _ _ _ _ _ Hp).
  - exists (exn_msg e).
    by rewrite (try_fetch_raises _ _ _ _ He), except_Exception_handled.
Qed.

(** An attempt gives tags and no error, or no tags and an error; tags it
    gives are not empty.  What it raises, a handler let through. *)
Lemma try_fetch_shape url s :
  match (_try_fetch url s).1 with
  | Ok (Some l, _, error) => l <> [] /\ error = None
  | Ok (None, _, error) => error <> None
  | Raise e' =>
      exists e w', raises url (world s) e w' /\ lets_through e e'
  end.
Proof.
  destruct (try_fetch_cases url s) as [(found & title & w' & Hp)|(e & w' & He)].
  - rewrite (try_fetch_page _ _ _ _ _ Hp). by destruct found.
  - rewrite (try_fetch_raises _ _ _ _ He). cbn [fst].
    destruct (except_Exception e _) as [[[tags title] error]|e'] eqn:Hx.
    + unfold except_Exception in Hx.
      destruct (is_Exception (exn_cls e)); [|done].
      destruct (str_exn e); cbn in Hx; by simplify_eq.
    + apply except_Exception_raises in Hx as [_ Hx]. by exists e, w'.
Qed.

Lemma truthy_tags_value (tags : option (list str)) :
  truthy_tags tags = true -> tags_value tags <> [].
Proof. by destruct tags as [[|]|]. Qed.

(** *** [fetch_tags] *)

(** C8.  For a URL that fails validation, [fetch_tags] returns the fixed
    failure result with the invalid-URL message, an empty tag list and no
    title, and leaves the state as it was: no request was made, neither
    for the [/0] form nor for the bare form. *)
Theorem fetch_tags_invalid_url url s :
  is_valid_naobaijin_url url = false ->
  fetch_tags url s =
    (Ok {| success := false; tags := [];
           error := Some msg_invalid_url; title := None |}, s) /\
  requests (fetch_tags url s).2 = requests s.
Proof.
  intros Hv. unfold fetch_tags. rewrite Hv. cbn. done.
Qed.

(** C10.  In every result [fetch_tags] returns, [success] holds exactly
    when the tags are not empty, the tags of a failure are the empty list,
    and [error] is [None] exactly when [success] holds.  [fetch_tags]
    returns such a result, unless an exception raised in an attempt is one
    that the handlers of the attempt let through. *)
Theorem fetch_result_invariant url s :
  match (fetch_tags url s).1 with
  | Ok r =>
      (success r = true <-> tags r <> []) /\
      (success r = false -> tags r = []) /\
      (error r = None <-> success r = true)
  | Raise e' =>
      exists u w e w', raises u w e w' /\ lets_through e e'
  end.
Proof.
  unfold fetch_tags.
  destruct (negb (is_valid_naobaijin_url url)); [cbn; intuition congruence|].
  pose proof (try_fetch_shape (rstrip_char 0x2F url ++ py "/0") s) as Hs1.
  destruct (_try_fetch _ s) as [[[[tags1 title1] error1]|e1] s1].
  2: { cbn [fst] in *. destruct Hs1 as (e & w' & Hr & Hl).
       by exists (rstrip_char 0x2F url ++ py "/0"), (world s), e, w'. }
  destruct (truthy_tags tags1) eqn:Ht1.
  { apply truthy_tags_value in Ht1. cbn. intuition congruence. }
  pose proof (try_fetch_shape (rstrip_char 0x2F url) s1) as Hs2.
  destruct (_try_fetch _ s1) as [[[[tags2 title2] error2]|e2] s2].
  2: { cbn [fst] in *. destruct Hs2 as (e & w' & Hr & Hl).
       by exists (rstrip_char 0x2F url), (world s1), e, w'. }
  destruct (truthy_tags tags2) eqn:Ht2.
  { apply truthy_tags_value in Ht2. cbn. intuition congruence. }
  cbn. intuition congruence.
Qed.

(** C3.  For a URL that passes validation, with [norm] the URL without
    its trailing slashes.  Attempt 1 requests [norm + "/0"]; if it yields
    tags, the result is a success with these tags and the title of that
    page, and no further request is made.  If attempt 1 yields no tags,
    because its page shows none or because a failure was caught, attempt 2
    requests [norm].  If attempt 2 yields tags, the result is a success
    with these tags and the title of attempt 2, or that of attempt 1 when
    attempt 2 found no title or an empty one.  If attempt 2 yields no tags
    either, the result is the failure with the fixed message, no tags, and
    the title of attempt 1, or that of attempt 2 when attempt 1 found no
    title or an empty one.  In particular a request that fails at attempt
    1 is followed by the request of attempt 2. *)
Theorem fetch_tags_two_attempts url s :
  is_valid_naobaijin_url url = true ->
  let norm : str := rstrip_char 0x2F url in
  let first_page : str := norm ++ py "/0" in
  ((exists n, url = norm ++ replicate n 0x2F) /\
   endswith norm (py "/") = false) /\
  (forall found title1 w1,
     yields_tags first_page (world s) found title1 w1 ->
     fetch_tags url s =
       (Ok {| success := true; tags := found; error := None;
              title := title1 |},
        {| world := w1; requests := requests s ++ [first_page] |})) /\
  (forall title1 w1,
     yields_no_tags first_page (world s) title1 w1 ->
     (forall found title2 w2,
        yields_tags norm w1 found title2 w2 ->
        fetch_tags url s =
          (Ok {| success := true; tags := found; error := None;
                 title := match title2 with
                          | Some (c :: t) => Some (c :: t)
                          | Some [] | None => title1
                          end |},
           {| world := w2;
              requests := requests s ++ [first_page; norm] |})) /\
     (forall title2 w2,
        yields_no_tags norm w1 title2 w2 ->
        fetch_tags url s =
          (Ok {| success := false; tags := [];
                 error := Some msg_not_found;
                 title := match title1 with
                          | Some (c :: t) => Some (c :: t)
                          | Some [] | None => title2
                          end |},
           {| world := w2;
              requests := requests s ++ [first_page; norm] |}))) /\
  (forall e w1,
     session_get first_page (world s) = (Raise e, w1) ->
     handled e = true ->
     requests (fetch_tags url s).2 = requests s ++ [first_page; norm]).
Proof.
  intros Hv norm first_page.
  split; [apply rstrip_slash|].
  assert (Hlog : (requests s ++ [first_page]) ++ [norm]
                 = requests s ++ [first_page; norm])
    by by rewrite <- app_assoc.
  split; [|split].
  - intros found title1 w1 Hy.
    unfold fetch_tags. rewrite Hv. cbn [negb]. fold norm. fold first_page.
    rewrite (try_fetch_yields_tags _ _ _ _ _ Hy). cbv beta iota.
    destruct Hy as [Hne _]. by destruct found.
  - intros title1 w1 Hy1.
    destruct (try_fetch_yields_no_tags _ _ _ _ Hy1) as [error1 Ha1].
    split.
    + intros found title2 w2 Hy2.
      unfold fetch_tags. rewrite Hv. cbn [negb]. fold norm. fold first_page.
      rewrite Ha1. cbv beta iota. cbn [truthy_tags].
      rewrite (try_fetch_yields_tags norm
                 {| world := w1; requests := requests s ++ [first_page] |}
                 _ _ _ Hy2).
      cbv beta iota. cbn [requests]. rewrite Hlog.
      destruct Hy2 as [Hne _]. destruct found as [|t l]; [done|].
      cbn [truthy_tags tags_value]. by destruct title2 as [[|c t2]|].
    + intros title2 w2 Hy2.
      destruct (try_fetch_yields_no_tags norm
                  {| world := w1; requests := requests s ++ [first_page] |}
                  _ _ Hy2) as [error2 Ha2].
      unfold fetch_tags. rewrite Hv. cbn [negb]. fold norm. fold first_page.
      rewrite Ha1. cbv beta iota. cbn [truthy_tags]. rewrite Ha2. cbv beta iota. cbn [truthy_tags requests].
      rewrite Hlog. by destruct title1 as [[|c t1]|].
  - intros e w1 Hget Hh.
    assert (Hr : raises first_page (world s) e w1) by by left.
    unfold fetch_tags. rewrite Hv. cbn [negb]. fold norm. fold first_page.
    rewrite (try_fetch_raises _ _ _ _ Hr), except_Exception_handled by done.
    cbv beta iota. cbn [truthy_tags].
    pose proof (try_fetch_requests norm
      {| world := w1; requests := requests s ++ [first_page] |}) as Hr2.
    destruct (_try_fetch norm _) as [[[[tags2 title2] error2]|e2] s2].
    + cbn [snd requests] in Hr2. rewrite Hlog in Hr2.
      by destruct (truthy_tags tags2).
    + cbn [snd requests] in Hr2. by rewrite Hlog in Hr2.
Qed.

End FetcherProperties.

Section FetcherExamples.
Import ForumTagFetcher Attempts Samples MoreSamples.

(** C2, at a failing input: the netloc of
    [https://evilnaobaijin.app/t/1] is [evilnaobaijin.app], a host that
    neither equals an allow-list domain nor is a subdomain of one, and the
    validation accepts the URL. *)
Theorem lookalike_host_accepted :
  let url := py "https://evilnaobaijin.app/t/1" in
  urlsplit_netloc url = Ok (py "evilnaobaijin.app") /\
  host_on_allow_list (py "evilnaobaijin.app") = false /\
  @is_valid_naobaijin_url (canned offline) url = true.
Proof. vm_compute. done. Qed.

(** The accepted URL is then requested. *)
Example lookalike_host_requested :
  requests (@fetch_tags (canned offline) (py "https://evilnaobaijin.app/t/1")
              (fresh offline)).2
  = [py "https://evilnaobaijin.app/t/1/0";
     py "https://evilnaobaijin.app/t/1"].
Proof. vm_compute. reflexivity. Qed.

Lemma fetch_tags_invalid_url_witness :
  @is_valid_naobaijin_url (canned offline) (py "https://example.com/t/1")
    = false /\
  @fetch_tags (canned offline) (py "https://example.com/t/1") (fresh offline)
    = (Ok {| success := false; tags := [];
             error := Some msg_invalid_url; title := None |}, fresh offline).
Proof.
  assert (Hv : @is_valid_naobaijin_url (canned offline)
                 (py "https://example.com/t/1") = false)
    by (vm_compute; reflexivity).
  split; [exact Hv|].
  exact (proj1 (@fetch_tags_invalid_url (canned offline) _ (fresh offline) Hv)).
Defined.

(** [https://naobaijin.app/t/123/]: the [/0] form is requested first; its
    page is titled [Thread] and shows no tags.  The bare form follows; its
    page has the tags and no title, so the title of the result is the one
    of attempt 1. *)
Lemma fetch_tags_two_attempts_witness :
  let url := py "https://naobaijin.app/t/123/" in
  @is_valid_naobaijin_url (untitled tags_on_bare_page) url = true /\
  rstrip_char 0x2F url = py "https://naobaijin.app/t/123" /\
  @fetch_tags (untitled tags_on_bare_page) url
    (@mkState (untitled tags_on_bare_page) tt [])
  = (Ok {| success := true; tags := [py "RPG"; py "fantasy"];
           error := None; title := Some (py "Thread") |},
     @mkState (untitled tags_on_bare_page) tt
       [py "https://naobaijin.app/t/123/0";
        py "https://naobaijin.app/t/123"]).
Proof.
  intros url.
  assert (Hv : @is_valid_naobaijin_url (untitled tags_on_bare_page) url
               = true)
    by (vm_compute; reflexivity).
  assert (Hn : rstrip_char 0x2F url = py "https://naobaijin.app/t/123")
    by (vm_compute; reflexivity).
  split; [exact Hv|]. split; [exact Hn|].
  pose proof (@fetch_tags_two_attempts (untitled tags_on_bare_page) url
                (@mkState (untitled tags_on_bare_page) tt []) Hv) as Hthm.
  cbv zeta in Hthm. rewrite Hn in Hthm.
  destruct Hthm as (_ & _ & Hsecond & _).
  destruct (Hsecond (Some (py "Thread")) tt) as [Htags _].
  { left. exists (py "Thread"), [].
    split; [vm_compute; reflexivity|]. split; [reflexivity|].
    split; [vm_compute; reflexivity|]. split; vm_compute; reflexivity. }
  apply (Htags [py "RPG"; py "fantasy"] None tt).
  split; [discriminate|]. exists (py "<page>"), page_events.
  split; [vm_compute; reflexivity|]. split; [reflexivity|].
  split; [vm_compute; reflexivity|]. split; vm_compute; reflexivity.
Defined.

(** When the bare form times out after that first page, the result is the
    failure, and it carries the title of attempt 1. *)
Example fetch_tags_keeps_recovered_title :
  @fetch_tags (untitled title_on_first_page)
    (py "https://naobaijin.app/t/123/")
    (@mkState (untitled title_on_first_page) tt [])
  = (Ok {| success := false; tags := [];
           error := Some msg_not_found; title := Some (py "Thread") |},
     @mkState (untitled title_on_first_page) tt
       [py "https://naobaijin.app/t/123/0";
        py "https://naobaijin.app/t/123"]).
Proof. vm_compute. reflexivity. Qed.

(** Markup the tokenizer stops at is a failure of attempt 1 like any
    other: attempt 2 follows. *)
Example fetch_tags_after_tokenizer_error :
  @fetch_tags (untitled broken_first_page) (py "https://naobaijin.app/t/123/")
    (@mkState (untitled broken_first_page) tt [])
  = (Ok {| success := true; tags := [py "RPG"; py "fantasy"];
           error := None; title := None |},
     @mkState (untitled broken_first_page) tt
       [py "https://naobaijin.app/t/123/0";
        py "https://naobaijin.app/t/123"]).
Proof. vm_compute. reflexivity. Qed.

(** An interrupt during attempt 1 leaves [fetch_tags]; attempt 2 is not
    made. *)
Example fetch_tags_interrupted :
  @fetch_tags (untitled interrupted) (py "https://naobaijin.app/t/123/")
    (@mkState (untitled interrupted) tt [])
  = (Raise interrupt,
     @mkState (untitled interrupted) tt [py "https://naobaijin.app/t/123/0"]).
Proof. vm_compute. reflexivity. Qed.

End FetcherExamples.

(** ** The automation hooks *)

Section HookProperties.
Import AutomationService Actions.
Context `{Env}.

Implicit Types (card_id : str) (s : state) (actions : list action).

(** The boundary of a hook, written out class by class. *)
Lemma except_Exception_at_boundary (e : exn) :
  except_Exception e (fun _ => PNone) = at_boundary e.
Proof.
  unfold except_Exception, at_boundary, str_exn.
  destruct (exn_cls e); cbn; by destruct (exn_str_raises e) as [[cls msg]|].
Qed.

Lemma try_except_outcome (body : M pyval) s :
  try_except body s =
  match body s with
  | (Ok v, s') => (Ok v, s')
  | (Raise e, s') => (at_boundary e, s')
  end.
Proof.
  unfold try_except. destruct (body s) as [[v|e] s']; [done|].
  by rewrite except_Exception_at_boundary.
Qed.

Lemma at_boundary_handled (e : exn) :
  handled e = true -> at_boundary e = Ok PNone.
Proof.
  unfold handled, at_boundary.
  by destruct (exn_cls e), (exn_str_raises e) as [[cls msg]|].
Qed.

(** What [set.add] raises, a [TypeError], is handled. *)
Lemma build_plan_raise_handled actions : forall p e,
  build_plan p actions = Raise e -> handled e = true.
Proof.
  induction actions as [|a l IH]; intros p e; cbn [build_plan]; [done|].
  destruct (plan_step p a) as [p1|e1] eqn:Hstep; cbn [rbind].
  { apply IH. }
  intros [= <-]. revert Hstep. unfold plan_step, set_add.
  repeat case_match; cbn; intros; by simplify_eq.
Qed.

(** The import hook once [prepare] has given actions. *)
Lemma import_hook_after_prepare card_id s s1 a actions ui_data :
  prepare card_id s = (Ok (Some (a :: actions, ui_data)), s1) ->
  auto_run_rules_on_card card_id s =
  match build_plan empty_plan (a :: actions) with
  | Ok p =>
      let (r, w) := apply_plan card_id p ui_data (world s1) in
      (executor_answer r,
       {| world := w; applied := applied s1 ++ [(card_id, p, ui_data)] |})
  | Raise _ => (Ok PNone, s1)
  end.
Proof.
  intros Hprep.
  unfold auto_run_rules_on_card. rewrite try_except_outcome.
  unfold auto_run_rules_on_card_body, bind. rewrite Hprep.
  unfold lift, do_apply_plan, ret.
  destruct (build_plan empty_plan (a :: actions)) as [p|e] eqn:Hb.
  - destruct (apply_plan card_id p ui_data (world s1)) as [[res|e] w]; done.
  - by rewrite at_boundary_handled by by eapply build_plan_raise_handled.
Qed.

(** The link-update hook once [prepare] has given actions. *)
Lemma link_hook_after_prepare card_id s s1 a actions ui_data :
  prepare card_id s = (Ok (Some (a :: actions, ui_data)), s1) ->
  auto_run_forum_tags_on_link_update card_id s =
  let config := extract_fetch_config (a :: actions) in
  if truthy config then
    let (r, w) := apply_plan card_id (fetch_plan config) ui_data (world s1) in
    (executor_answer r,
     {| world := w;
        applied := applied s1 ++ [(card_id, fetch_plan config, ui_data)] |})
  else (Ok ret_no_fetch_action, s1).
Proof.
  intros Hprep.
  unfold auto_run_forum_tags_on_link_update. rewrite try_except_outcome.
  unfold auto_run_forum_tags_on_link_update_body, bind.
  rewrite Hprep. cbn zeta. unfold do_apply_plan, ret, fetch_plan.
  destruct (truthy (extract_fetch_config (a :: actions))); [|done].
  cbn [negb].
  destruct (apply_plan card_id _ ui_data (world s1)) as [[res|e] w]; done.
Qed.



(** The loop of the link-update hook looks at the first fetch action
    only. *)
Lemma extract_fetch_config_first pre v post :
  Forall (fun a => act_type a <> ACT_FETCH_FORUM_TAGS) pre ->
  extract_fetch_config (pre ++ mkAction ACT_FETCH_FORUM_TAGS v :: post) =
  match v with
  | PDict d => PDict d
  | _ => PDict []
  end.
Proof.
  induction 1 as [|a pre Ha _ IH]; cbn [app extract_fetch_config].
  - cbn [act_type act_value]. by rewrite str_eqb_refl.
  - unfold str_eqb at 1. by rewrite bool_decide_eq_false_2.
Qed.

Lemma extract_fetch_config_none actions :
  Forall (fun a => act_type a <> ACT_FETCH_FORUM_TAGS) actions ->
  extract_fetch_config actions = PNone.
Proof.
  induction 1 as [|a pre Ha _ IH]; cbn [extract_fetch_config]; [done|].
  unfold str_eqb at 1. by rewrite bool_decide_eq_false_2.
Qed.

(** [prepare] calls no executor. *)
Lemma prepare_applied card_id s r s1 :
  prepare card_id s = (r, s1) -> applied s1 = applied s.
Proof.
  unfold prepare, bind, call, lift, ret.
  repeat (first
    [ match goal with
      | |- context [let (_, _) := ?f (world ?st) in _] =>
          destruct (f (world st)) as [[?|?] ?]; cbn [world applied]
      end
    | case_match ]); intros; simplify_eq; reflexivity.
Qed.

(** C4, at the failing inputs: when the first fetch action of the
    evaluated actions has a value that is not a mapping, or is the empty
    mapping, the link-update hook returns
    [{run: true, actions: 0, reason: "no_fetch_forum_tags_action"}] and
    the executor is not called. *)
Theorem empty_fetch_config_skips_executor card_id s s1 pre v post ui_data :
  prepare card_id s
    = (Ok (Some (pre ++ mkAction ACT_FETCH_FORUM_TAGS v :: post, ui_data)),
       s1) ->
  Forall (fun a => act_type a <> ACT_FETCH_FORUM_TAGS) pre ->
  match v with PDict (_ :: _) => False | _ => True end ->
  auto_run_forum_tags_on_link_update card_id s
    = (Ok ret_no_fetch_action, s1) /\
  applied s1 = applied s.
Proof.
  intros Hprep Hpre Hv. split; [|by eapply prepare_applied].
  unfold auto_run_forum_tags_on_link_update, try_except,
    auto_run_forum_tags_on_link_update_body, bind.
  rewrite Hprep.
  assert (Hcfg : truthy (extract_fetch_config
            (pre ++ mkAction ACT_FETCH_FORUM_TAGS v :: post)) = false).
  { rewrite extract_fetch_config_first by done.
    destruct v as [| | | | |[|kv d]]; cbn; done. }
  destruct (pre ++ mkAction ACT_FETCH_FORUM_TAGS v :: post) as [|a actions]
    eqn:Hl.
  { by destruct pre. }
  rewrite Hcfg. reflexivity.
Qed.

End HookProperties.

Section HookExamples.
Import AutomationService Samples MoreSamples.

Lemma empty_fetch_config_skips_executor_witness :
  let evaluated :=
    Ok [ mkAction (py "add_tag") (PStr (py "x"));
         mkAction ACT_FETCH_FORUM_TAGS (PStr (py "yes"));
         mkAction ACT_FETCH_FORUM_TAGS
           (PDict [(py "merge_mode", PStr (py "merge"))]) ] in
  @auto_run_forum_tags_on_link_update (service evaluated (Ok (PBool true)))
    (py "card-1") (idle evaluated (Ok (PBool true)))
  = (Ok ret_no_fetch_action, idle evaluated (Ok (PBool true))).
Proof.
  intros evaluated.
  assert (Hprep :
    @prepare (service evaluated (Ok (PBool true))) (py "card-1")
      (idle evaluated (Ok (PBool true)))
    = (Ok (Some ([mkAction (py "add_tag") (PStr (py "x"))]
                 ++ mkAction ACT_FETCH_FORUM_TAGS (PStr (py "yes"))
                 :: [mkAction ACT_FETCH_FORUM_TAGS
                       (PDict [(py "merge_mode", PStr (py "merge"))])],
                 [])),
       idle evaluated (Ok (PBool true))))
    by (vm_compute; reflexivity).
  assert (Hpre : Forall (fun a => act_type a <> ACT_FETCH_FORUM_TAGS)
                   [mkAction (py "add_tag") (PStr (py "x"))]).
  { constructor; [|constructor]. intros Heq. vm_compute in Heq.
    discriminate Heq. }
  exact (proj1 (@empty_fetch_config_skips_executor
                  (service evaluated (Ok (PBool true)))
                  _ _ _ _ _ _ _ Hprep Hpre I)).
Defined.

(** The same with the empty mapping as the value. *)
Example link_update_empty_mapping :
  let evaluated := Ok [mkAction ACT_FETCH_FORUM_TAGS (PDict [])] in
  @auto_run_forum_tags_on_link_update (service evaluated (Ok (PBool true)))
    (py "card-1") (idle evaluated (Ok (PBool true)))
  = (Ok ret_no_fetch_action, idle evaluated (Ok (PBool true))).
Proof. vm_compute. reflexivity. Qed.

(** With a mapping that is not empty the executor is called, with a plan
    that holds this mapping and nothing else. *)
Example link_update_with_mapping :
  let config := PDict [(py "merge_mode", PStr (py "merge"))] in
  let evaluated :=
    Ok [ mkAction (py "add_tag") (PStr (py "x"));
         mkAction ACT_FETCH_FORUM_TAGS config;
         mkAction ACT_FETCH_FORUM_TAGS (PDict []) ] in
  @auto_run_forum_tags_on_link_update (service evaluated (Ok (PBool true)))
    (py "card-1") (idle evaluated (Ok (PBool true)))
  = (Ok (ret_result (PBool true)),
     @mkState (service evaluated (Ok (PBool true))) tt
       [(py "card-1",
         {| move := PNone; add_tags := []; remove_tags := [];
            favorite := PNone; fetch_forum_tags := config |},
         [])]).
Proof. vm_compute. reflexivity. Qed.

(** A rule engine that raises, and an executor that raises: both hooks
    return [None]. *)
Example hooks_return_none_on_failure :
  let fetch := Ok [mkAction ACT_FETCH_FORUM_TAGS
                     (PDict [(py "merge_mode", PStr (py "merge"))])] in
  let add := Ok [mkAction (py "add_tag") (PStr (py "x"))] in
  (@auto_run_rules_on_card (service (Raise engine_down) (Ok PNone))
     (py "card-1") (idle (Raise engine_down) (Ok PNone))).1 = Ok PNone /\
  (@auto_run_forum_tags_on_link_update
     (service (Raise engine_down) (Ok PNone))
     (py "card-1") (idle (Raise engine_down) (Ok PNone))).1 = Ok PNone /\
  (@auto_run_rules_on_card (service add (Raise engine_down))
     (py "card-1") (idle add (Raise engine_down))).1 = Ok PNone /\
  (@auto_run_forum_tags_on_link_update (service fetch (Raise engine_down))
     (py "card-1") (idle fetch (Raise engine_down))).1 = Ok PNone /\
  (@auto_run_rules_on_card (service (Ok [mkAction (py "add_tag") (PList [])])
                              (Ok PNone))
     (py "card-1") (idle (Ok [mkAction (py "add_tag") (PList [])])
                      (Ok PNone))).1 = Ok PNone.
Proof. vm_compute. repeat split; reflexivity. Qed.


(** An instance of [Exception] whose [__str__] raises: the handler fails
    while it formats the log line, and what [__str__] raised reaches the
    caller. *)
Example unprintable_exception_in_handler :
  is_Exception (exn_cls unprintable) = true /\
  (@auto_run_rules_on_card (service (Raise unprintable) (Ok PNone))
     (py "card-1") (idle (Raise unprintable) (Ok PNone))).1
    = Raise (Exn TypeError (py "__str__ returned non-string")).
Proof. vm_compute. split; reflexivity. Qed.

End HookExamples.

(** ** The scanner on whole documents *)

Section ScannerDocuments.
Import NaobaijinTagParser Documents.

Implicit Types (self : parser) (ev : event) (evs : list event).

#[local] Arguments py : simpl never.

Lemma run_app evs1 evs2 self :
  run self (evs1 ++ evs2)
  = rbind (run self evs1) (fun self' => run self' evs2).
Proof.
  revert self. induction evs1 as [|ev evs1 IH]; intros self; cbn; [done|].
  destruct (handle self ev) as [self1|e]; cbn; [apply IH|done].
Qed.

Lemma str_eqb_true (a b : str) : str_eqb a b = true <-> a = b.
Proof. unfold str_eqb. apply bool_decide_eq_true. Qed.

Lemma handle_ignored self ev : relevant ev = false -> handle self ev = Ok self.
Proof.
  destruct ev; cbn; try done; intros Hr.
  - unfold handle_starttag. by rewrite Hr.
  - unfold handle_endtag. by rewrite Hr.
  - unfold handle_starttag, handle_endtag. rewrite Hr. cbn. by rewrite ?Hr.
Qed.

(** X1.  Tags other than [div], comments, declarations and processing
    instructions can be left out of a document without any change to what
    the scanner does. *)
Theorem run_relevant_only evs self :
  run self (filter (fun ev => relevant ev = true) evs) = run self evs.
Proof.
  revert self. induction evs as [|ev evs IH]; intros self; [done|].
  rewrite filter_cons. destruct (decide (relevant ev = true)) as [Hr|Hr].
  - cbn. destruct (handle self ev); cbn; [apply IH|done].
  - apply not_true_is_false in Hr. cbn.
    rewrite (handle_ignored _ _ Hr). cbn. apply IH.
Qed.

(** A self-closing tag is its start tag followed by its end tag. *)
Lemma run_startendtag tag attrs evs self :
  run self (StartEndTag tag attrs :: evs)
  = run self (StartTag tag attrs :: EndTag tag :: evs).
Proof. cbn. by destruct (handle_starttag self tag attrs). Qed.

(** *** When the scanner raises *)

Lemma handle_valueless self ev :
  if valueless_class ev then handle self ev = Raise type_error_none
  else exists self', handle self ev = Ok self'.
Proof.
  unfold valueless_class, div_class.
  destruct ev; cbn; eauto.
  - unfold handle_starttag.
    destruct (str_eqb tag (py "div")); [|eauto].
    destruct (class_attr_of attrs); eauto.
  - unfold handle_starttag.
    destruct (str_eqb tag (py "div")); [|cbn; eauto].
    destruct (class_attr_of attrs); cbn; eauto.
Qed.

(** X2.  Over any sequence of callbacks, from any parser state, the handlers
    raise exactly when some [div] start-tag callback has a class attribute
    without a value; what they raise is the [TypeError] of the membership
    test on [None].  Over every other sequence of callbacks they return.
    (What the tokenizer of [feed] raises by itself is no callback, and is
    not covered.) *)
Theorem run_raises_iff_valueless_class evs self :
  match run self evs with
  | Ok _ => existsb valueless_class evs = false
  | Raise e => e = type_error_none /\ existsb valueless_class evs = true
  end.
Proof.
  revert self. induction evs as [|ev evs IH]; intros self; cbn; [done|].
  pose proof (handle_valueless self ev) as Hh.
  destruct (valueless_class ev); cbn.
  - by rewrite Hh.
  - destruct Hh as [self' ->]. cbn. apply IH.
Qed.

(** *** Outside the main container *)

Lemma handle_outside self ev :
  without_marker ev = true ->
  in_main_tags_container self = false ->
  in_tag_pill self = false ->
  handle self ev = Ok self.
Proof.
  unfold without_marker, div_class, has_marker. intros Hw Hm Hp.
  assert (Hend : forall tag, handle_endtag self tag = self).
  { intros tag. unfold handle_endtag. rewrite Hm. cbn zeta. rewrite Hp.
    by destruct (str_eqb tag (py "div")). }
  assert (Hstart : forall tag attrs,
            match (if str_eqb tag (py "div")
                   then Some (class_attr_of attrs) else None) with
            | Some (Some class_attr) =>
                negb (contains (py "tags_e5a45e") class_attr)
            | Some None => false
            | None => true
            end = true ->
            handle_starttag self tag attrs = Ok self).
  { intros tag attrs Ht. unfold handle_starttag.
    destruct (str_eqb tag (py "div")); [|done].
    destruct (class_attr_of attrs) as [class_attr|]; [|done].
    apply negb_true_iff in Ht. rewrite Ht, Hm. cbn. by rewrite Hm. }
  destruct ev; cbn; try done.
  - by apply Hstart.
  - by rewrite Hend.
  - rewrite Hstart by done. cbn. by rewrite Hend.
  - unfold handle_data. by rewrite Hp.
Qed.

Lemma run_outside evs self :
  forallb without_marker evs = true ->
  in_main_tags_container self = false ->
  in_tag_pill self = false ->
  run self evs = Ok self.
Proof.
  induction evs as [|ev evs IH]; cbn; [done|].
  intros [Hw Hws]%andb_true_iff Hm Hp.
  rewrite handle_outside by done. cbn. by apply IH.
Qed.

(** X3.  A sequence of callbacks in which no [div] start tag has a class that
    contains the container marker, and none has a class attribute without
    a value, leaves a fresh parser as it is: the scan returns the empty
    list, whatever pills the sequence has. *)
Theorem scan_without_container evs :
  forallb without_marker evs = true ->
  run init evs = Ok init /\ scan evs = Ok [].
Proof.
  intros Hw. unfold scan. by rewrite run_outside.
Qed.

(** *** Counters and flags *)

Lemma handle_starttag_consistent self tag attrs self' :
  handle_starttag self tag attrs = Ok self' ->
  consistent self -> consistent self'.
Proof.
  unfold handle_starttag. intros Hh [H1 H2 H3 H4 H5].
  repeat case_match; simplify_eq; split; cbn; intros; try done;
    repeat match goal with
    | H : ?b = true -> _, E : ?b = true |- _ => specialize (H E)
    | H : ?b = false -> _, E : ?b = false |- _ => specialize (H E)
    end; try lia; try congruence.
Qed.

Lemma handle_endtag_consistent self tag :
  consistent self -> consistent (handle_endtag self tag).
Proof.
  unfold handle_endtag. intros Hc.
  destruct (str_eqb tag (py "div")); [|done]. cbn zeta.
  set (self1 := if in_main_tags_container self then _ else self).
  assert (Hc1 : consistent self1).
  { subst self1.
    destruct (in_main_tags_container self) eqn:Hm; [|exact Hc].
    destruct Hc as [H1 H2 H3 H4 H5]. specialize (H1 Hm).
    destruct (Z.eqb_spec (main_container_depth self - 1) 0) as [Hz|Hz];
      split; cbn; intros; auto; try done; lia. }
  clearbody self1.
  destruct (in_tag_pill self1) eqn:Hp; [|exact Hc1].
  destruct Hc1 as [H1 H2 H3 H4 H5]. specialize (H3 Hp).
  destruct (Z.eqb_spec (div_depth self1 - 1) 0) as [Hz|Hz].
  - destruct (_ && _ && _); split; cbn; intros; auto; done.
  - split; cbn; intros; auto; try done; lia.
Qed.

Lemma handle_consistent self ev self' :
  handle self ev = Ok self' -> consistent self -> consistent self'.
Proof.
  destruct ev; cbn; intros Hh Hc; simplify_eq; try done.
  - by eapply handle_starttag_consistent.
  - by apply handle_endtag_consistent.
  - destruct (handle_starttag self tag attrs) as [self1|] eqn:Hs;
      cbn in Hh; simplify_eq.
    apply handle_endtag_consistent. by eapply handle_starttag_consistent.
  - unfold handle_data.
    destruct (in_tag_pill self) eqn:Hp; [|exact Hc].
    destruct Hc as [H1 H2 H3 H4 H5].
    split; cbn; intros; auto; done.
Qed.

Lemma init_consistent : consistent init.
Proof. split; cbn; done. Qed.

(** X4.  On every document, balanced or not, the two depth counters never go
    below 0: each is at least 1 while its flag is set and 0 while it is
    not, and the text buffer is empty outside a pill. *)
Theorem run_consistent evs self' :
  run init evs = Ok self' -> consistent self'.
Proof.
  assert (Hgen : forall self, run self evs = Ok self' ->
                   consistent self -> consistent self').
  { induction evs as [|ev evs IH]; cbn; intros self Hr Hc.
    - by simplify_eq.
    - destruct (handle self ev) as [self1|] eqn:Hh; cbn in Hr; [|done].
      eapply IH; [exact Hr|]. by eapply handle_consistent. }
  intros Hr. eapply Hgen; [exact Hr|apply init_consistent].
Qed.

End ScannerDocuments.

Section ScannerTags.
Import NaobaijinTagParser Documents.

Implicit Types (self : parser) (ev : event) (evs : list event).

#[local] Arguments py : simpl never.

(** *** Trimming *)

Lemma dropwhile_idemp (p : N -> bool) (l : str) :
  dropwhile p (dropwhile p l) = dropwhile p l.
Proof.
  induction l as [|c l IH]; cbn; [done|].
  destruct (p c) eqn:Hc; [done|]. cbn. by rewrite Hc.
Qed.

Lemma dropwhile_snoc (p : N -> bool) (l : str) (c : N) :
  p c = false -> dropwhile p (l ++ [c]) = dropwhile p l ++ [c].
Proof.
  intros Hc. induction l as [|d l IH]; cbn; [by rewrite Hc|].
  by destruct (p d).
Qed.

Lemma rstrip_cons (c : N) (l : str) :
  isspace c = false -> rstrip (c :: l) = c :: rstrip l.
Proof.
  intros Hc. unfold rstrip. cbn [rev].
  rewrite dropwhile_snoc by done. by rewrite rev_app_distr.
Qed.

Lemma rstrip_idemp (l : str) : rstrip (rstrip l) = rstrip l.
Proof. unfold rstrip. by rewrite rev_involutive, dropwhile_idemp. Qed.

(** [strip] is idempotent: a trimmed text has no white space left at
    either end. *)
Lemma strip_idemp (s : str) : strip (strip s) = strip s.
Proof.
  unfold strip, lstrip.
  destruct (dropwhile isspace s) as [|c l] eqn:Hd; [done|].
  assert (Hc : isspace c = false).
  { clear -Hd. induction s as [|d s IH]; cbn in Hd; [done|].
    destruct (isspace d) eqn:Hsp; [by apply IH|]. by simplify_eq. }
  rewrite rstrip_cons by done. cbn [dropwhile]. rewrite Hc.
  rewrite rstrip_cons by done. by rewrite rstrip_idemp.
Qed.

(** *** What the tags look like *)

Lemma handle_endtag_new_tag self tag :
  tags (handle_endtag self tag) = tags self \/
  exists t, clean_tag t /\ tags (handle_endtag self tag) = tags self ++ [t].
Proof.
  unfold handle_endtag.
  destruct (str_eqb tag (py "div")); [|by left]. cbn zeta.
  set (self1 := if in_main_tags_container self then _ else self).
  assert (E2 : tags self1 = tags self) by (subst self1; by repeat case_match).
  rewrite <- E2. clearbody self1.
  destruct (in_tag_pill self1); [|by left].
  destruct (_ =? _)%Z; [|by left].
  fold (pill_text self1).
  destruct (_ && _ && _) eqn:Hk; [|by left].
  apply pill_kept_test in Hk as (Hne & Hplus & _).
  right. exists (pill_text self1). split; [|done].
  split; [done|]. split; [done|]. apply strip_idemp.
Qed.

Lemma handle_new_tag self ev self' :
  handle self ev = Ok self' ->
  tags self' = tags self \/
  exists t, clean_tag t /\ tags self' = tags self ++ [t].
Proof.
  destruct ev; cbn; intros Hh; simplify_eq; try by left.
  - left. by eapply handle_starttag_tags.
  - apply handle_endtag_new_tag.
  - destruct (handle_starttag self tag attrs) as [self1|] eqn:Hs;
      cbn in Hh; simplify_eq.
    rewrite <- (handle_starttag_tags _ _ _ _ Hs).
    apply handle_endtag_new_tag.
  - left. unfold handle_data. by case_match.
Qed.

Lemma run_tags_clean evs : forall self self',
  run self evs = Ok self' ->
  Forall clean_tag (tags self) -> Forall clean_tag (tags self').
Proof.
  induction evs as [|ev evs IH]; cbn; intros self self' Hr Hc.
  - by simplify_eq.
  - destruct (handle self ev) as [self1|] eqn:Hh; cbn in Hr; [|done].
    eapply IH; [exact Hr|].
    destruct (handle_new_tag _ _ _ Hh) as [->|(t & Ht & ->)]; [done|].
    apply Forall_app. split; [done|]. by apply Forall_singleton.
Qed.

(** X5.  Every tag the scanner returns is not empty, does not start with [+],
    and has no white space at either end. *)
Theorem scan_tags_clean evs ts :
  scan evs = Ok ts -> Forall clean_tag ts.
Proof.
  unfold scan.
  destruct (run init evs) as [self'|] eqn:Hr; cbn; [|done].
  intros [= <-]. eapply run_tags_clean; [exact Hr|]. constructor.
Qed.

(** *** The [expecting_text] flag *)

Lemma forget_handle_starttag self tag attrs :
  rbind (handle_starttag self tag attrs)
    (fun self => Ok (with_expecting false self))
  = rbind (handle_starttag (with_expecting false self) tag attrs)
      (fun self => Ok (with_expecting false self)).
Proof.
  unfold handle_starttag.
  destruct (str_eqb tag (py "div")); [|by destruct self].
  destruct (class_attr_of attrs) as [class_attr|]; [|done].
  destruct self as [ts p txt d e m md].
  unfold with_expecting, set_pill, set_main. cbn.
  destruct (contains (py "tags_e5a45e") class_attr); cbn.
  - destruct (tag_class_pattern_search class_attr); cbn.
    + by destruct (negb _).
    + destruct p; cbn; [|done].
      by destruct e, (contains (py "lineClamp1__4bd52") class_attr).
  - destruct m; cbn; [|done].
    destruct (tag_class_pattern_search class_attr); cbn.
    + by destruct (negb _).
    + destruct p; cbn; [|done].
      by destruct e, (contains (py "lineClamp1__4bd52") class_attr).
Qed.

Lemma forget_handle_endtag self tag :
  with_expecting false (handle_endtag self tag)
  = with_expecting false (handle_endtag (with_expecting false self) tag).
Proof.
  unfold handle_endtag.
  destruct (str_eqb tag (py "div")); [|by destruct self].
  destruct self as [ts p txt d e m md].
  unfold with_expecting, set_pill, set_main, set_tags. cbn.
  destruct m; cbn.
  - destruct (md - 1 =? 0)%Z; cbn; (destruct p; cbn; [|done]);
      (destruct (d - 1 =? 0)%Z; cbn; [|done]); by destruct (_ && _ && _).
  - destruct p; cbn; [|done].
    destruct (d - 1 =? 0)%Z; cbn; [|done]. by destruct (_ && _ && _).
Qed.

Lemma forget_handle self ev :
  rbind (handle self ev) (fun self => Ok (with_expecting false self))
  = rbind (handle (with_expecting false self) ev)
      (fun self => Ok (with_expecting false self)).
Proof.
  destruct ev; cbn [handle rbind].
  - apply forget_handle_starttag.
  - f_equal. apply forget_handle_endtag.
  - pose proof (forget_handle_starttag self tag attrs) as Hs.
    destruct (handle_starttag self tag attrs) as [s1|e1],
      (handle_starttag (with_expecting false self) tag attrs) as [s2|e2];
      cbn [rbind] in *; try done.
    assert (Hs' : with_expecting false s1 = with_expecting false s2)
      by congruence.
    f_equal. rewrite forget_handle_endtag, Hs'.
    symmetry. apply forget_handle_endtag.
  - f_equal. destruct self as [ts p txt d e m md].
    unfold handle_data, with_expecting, set_pill. cbn. by destruct p.
  - by destruct self.
  - by destruct self.
  - by destruct self.
Qed.

(** X6.  The [expecting_text] flag, and with it the [lineClamp1__4bd52] marker
    that clears it, has no influence on anything else: two parsers that
    differ in this flag only go through the same document in step, raise
    at the same place, and end with the same tags, depth counters, flags
    and text buffer. *)
Theorem run_ignores_expecting_text evs self1 self2 :
  with_expecting false self1 = with_expecting false self2 ->
  rbind (run self1 evs) (fun self => Ok (with_expecting false self))
  = rbind (run self2 evs) (fun self => Ok (with_expecting false self)).
Proof.
  revert self1 self2.
  induction evs as [|ev evs IH]; intros self1 self2 Heq; cbn.
  - by rewrite Heq.
  - pose proof (forget_handle self1 ev) as H1.
    pose proof (forget_handle self2 ev) as H2.
    rewrite Heq in H1. rewrite <- H2 in H1. clear H2.
    destruct (handle self1 ev) as [s1|e1], (handle self2 ev) as [s2|e2];
      cbn [rbind] in *; try done.
    apply IH. congruence.
Qed.

End ScannerTags.

Section ScannerPages.
Import NaobaijinTagParser Documents.

Implicit Types (self : parser) (ev : event) (evs : list event).

#[local] Arguments py : simpl never.

Lemma parser_eq self1 self2 :
  tags self1 = tags self2 ->
  in_tag_pill self1 = in_tag_pill self2 ->
  current_tag_text self1 = current_tag_text self2 ->
  div_depth self1 = div_depth self2 ->
  expecting_text self1 = expecting_text self2 ->
  in_main_tags_container self1 = in_main_tags_container self2 ->
  main_container_depth self1 = main_container_depth self2 ->
  self1 = self2.
Proof. destruct self1, self2; cbn; congruence. Qed.

Lemma texts_app evs1 evs2 : texts (evs1 ++ evs2) = texts evs1 ++ texts evs2.
Proof. apply omap_app. Qed.

Lemma texts_ignored ev : relevant ev = false -> forall evs,
  texts (ev :: evs) = texts evs.
Proof. by destruct ev. Qed.

(** A [div] end tag at depths above 1: both counters go down, nothing
    else changes. *)
Lemma handle_endtag_inner self :
  in_main_tags_container self = true ->
  in_tag_pill self = true ->
  (2 <= main_container_depth self)%Z ->
  (2 <= div_depth self)%Z ->
  handle_endtag self (py "div")
  = set_pill true (div_depth self - 1) (expecting_text self)
      (current_tag_text self)
      (set_main true (main_container_depth self - 1) self).
Proof.
  intros Hm Hp Hmd Hd. unfold handle_endtag.
  rewrite str_eqb_refl, Hm. cbn zeta.
  rewrite (proj2 (Z.eqb_neq _ 0)) by lia. cbn. rewrite Hp.
  rewrite (proj2 (Z.eqb_neq _ 0)) by lia. done.
Qed.

(** Plain content inside an open pill: its text is collected, and the
    depths are back where they were at its end. *)
Lemma run_plain_content_in_pill evs :
  plain_content evs -> forall self,
  in_main_tags_container self = true ->
  in_tag_pill self = true ->
  (1 <= main_container_depth self)%Z ->
  (1 <= div_depth self)%Z ->
  exists e,
    run self evs
    = Ok (set_pill true (div_depth self) e
            (current_tag_text self ++ texts evs) self).
Proof.
  induction 1 as [|s evs _ IH|ev evs Hr _ IH
                  |attrs class_attr inner evs Hc Hmk Hpat _ IHin _ IH];
    intros self Hm Hp Hmd Hd.
  - exists (expecting_text self). cbn. f_equal.
    apply parser_eq; cbn; try done. by rewrite app_nil_r.
  - cbn [run handle]. unfold handle_data. rewrite Hp. cbn [rbind].
    destruct (IH (set_pill true (div_depth self) (expecting_text self)
                    (current_tag_text self ++ [s]) self))
      as [e He]; try done.
    exists e. rewrite He. f_equal.
    apply parser_eq; cbn; try done. by rewrite <- app_assoc.
  - cbn [run]. rewrite handle_ignored by done. cbn [rbind].
    destruct (IH self) as [e He]; try done.
    exists e. by rewrite He, texts_ignored.
  - cbn [run handle].
    rewrite (handle_starttag_div _ _ _ Hc). cbn zeta.
    unfold has_marker in Hmk. rewrite Hmk, Hm. cbn [rbind].
    change (in_main_tags_container
              (set_main true (main_container_depth self + 1) self))
      with true. cbn iota.
    rewrite Hpat.
    change (in_tag_pill
              (set_main true (main_container_depth self + 1) self))
      with (in_tag_pill self). rewrite Hp.
    set (self1 := if _ && _ then _ else _).
    assert (H1 : exists e1, self1 =
              set_pill true (div_depth self + 1) e1 (current_tag_text self)
                (set_main true (main_container_depth self + 1) self)).
    { subst self1. destruct (_ && _); eexists; reflexivity. }
    destruct H1 as [e1 ->].
    rewrite run_app.
    edestruct (IHin (set_pill true (div_depth self + 1) e1
                       (current_tag_text self)
                       (set_main true (main_container_depth self + 1) self)))
      as [e2 He2]; try done; cbn; try lia.
    rewrite He2. cbn [rbind run handle].
    rewrite handle_endtag_inner by (cbn; done || lia).
    cbn [rbind].
    edestruct (IH (set_pill true (div_depth self) e2
                     (current_tag_text self ++ texts inner)
                     (set_main true (main_container_depth self) self)))
      as [e3 He3]; try done.
    exists e3.
    match goal with |- run ?s1 evs = _ =>
      replace s1 with (set_pill true (div_depth self) e2
                         (current_tag_text self ++ texts inner)
                         (set_main true (main_container_depth self) self))
    end.
    + rewrite He3. f_equal.
      apply parser_eq; cbn; try done.
      cbn [texts omap]. fold (texts (inner ++ EndTag (py "div") :: evs)).
      rewrite texts_app. cbn [texts omap]. by rewrite app_assoc.
    + apply parser_eq; cbn; try done; lia.
Qed.

(** A [div] start tag in the container, outside a pill, whose class
    matches neither the marker nor the pill pattern: the container depth
    goes up. *)
Lemma handle_starttag_plain self attrs class_attr :
  class_attr_of attrs = Some class_attr ->
  has_marker class_attr = false ->
  tag_class_pattern_search class_attr = false ->
  in_main_tags_container self = true ->
  in_tag_pill self = false ->
  handle_starttag self (py "div") attrs
  = Ok (set_main true (main_container_depth self + 1) self).
Proof.
  intros Hc Hmk Hpat Hm Hp.
  rewrite (handle_starttag_div _ _ _ Hc). cbn zeta.
  unfold has_marker in Hmk. rewrite Hmk, Hm. cbn. by rewrite Hpat, Hp.
Qed.

(** A [div] end tag in the container at depth above 1, outside a pill. *)
Lemma handle_endtag_outside_pill self :
  in_main_tags_container self = true ->
  in_tag_pill self = false ->
  (2 <= main_container_depth self)%Z ->
  handle_endtag self (py "div")
  = set_main true (main_container_depth self - 1) self.
Proof.
  intros Hm Hp Hmd. unfold handle_endtag.
  rewrite str_eqb_refl, Hm. cbn zeta.
  rewrite (proj2 (Z.eqb_neq _ 0)) by lia. cbn. by rewrite Hp.
Qed.

(** Plain content in the container, outside a pill, changes nothing. *)
Lemma run_plain_content_outside_pill evs :
  plain_content evs -> forall self,
  in_main_tags_container self = true ->
  in_tag_pill self = false ->
  (1 <= main_container_depth self)%Z ->
  run self evs = Ok self.
Proof.
  induction 1 as [|s evs _ IH|ev evs Hr _ IH
                  |attrs class_attr inner evs Hc Hmk Hpat _ IHin _ IH];
    intros self Hm Hp Hmd.
  - done.
  - cbn [run handle]. unfold handle_data. rewrite Hp. cbn [rbind].
    by apply IH.
  - cbn [run]. rewrite handle_ignored by done. cbn [rbind]. by apply IH.
  - cbn [run handle].
    rewrite (handle_starttag_plain _ _ _ Hc) by done. cbn [rbind].
    rewrite run_app, IHin by (cbn; done || lia).
    cbn [rbind run handle].
    rewrite handle_endtag_outside_pill by (cbn; done || lia).
    cbn [rbind].
    replace (set_main true _ _) with self; [by apply IH|].
    apply parser_eq; cbn; try done; lia.
Qed.

Lemma add_tag_test (ts : list str) (t : str) :
  add_tag ts t
  = if truthy_str t && negb (startswith t (py "+"))
       && negb (bool_decide (t ∈ ts))
    then ts ++ [t] else ts.
Proof. reflexivity. Qed.

(** The [div] end tag that closes a pill. *)
Lemma handle_endtag_close_pill self :
  in_main_tags_container self = true ->
  in_tag_pill self = true ->
  div_depth self = 1%Z ->
  (2 <= main_container_depth self)%Z ->
  handle_endtag self (py "div")
  = set_pill false 0 (expecting_text self) []
      (set_tags (add_tag (tags self) (pill_text self))
         (set_main true (main_container_depth self - 1) self)).
Proof.
  destruct self as [ts p txt d e m md]. cbn [in_main_tags_container
    in_tag_pill div_depth main_container_depth]. intros -> -> -> Hmd.
  unfold handle_endtag. rewrite str_eqb_refl.
  unfold set_main, set_pill, set_tags, pill_text, add_tag, keepable.
  cbn [in_main_tags_container in_tag_pill div_depth main_container_depth
       tags current_tag_text expecting_text].
  rewrite (proj2 (Z.eqb_neq (md - 1) 0)) by lia.
  cbn [in_main_tags_container in_tag_pill div_depth main_container_depth
       tags current_tag_text expecting_text].
  change (1 - 1 =? 0)%Z with true. cbn iota.
  change (1 - 1)%Z with 0%Z.
  destruct (_ && _ && _); reflexivity.
Qed.

(** The body of the container, run in the container outside a pill: the
    trimmed texts of its pills are added to the tags, in order, and the
    parser is otherwise where it was. *)
Lemma run_container_body evs ts :
  container_body evs ts -> forall self,
  in_main_tags_container self = true ->
  in_tag_pill self = false ->
  div_depth self = 0%Z ->
  current_tag_text self = [] ->
  (1 <= main_container_depth self)%Z ->
  exists e,
    run self evs
    = Ok (with_expecting e (set_tags (foldl add_tag (tags self) ts) self)).
Proof.
  induction 1 as
    [|s evs ts _ IH|ev evs ts Hr _ IH
     |attrs class_attr content evs ts Hc Hmk Hpat Hex Hcont _ IH
     |attrs class_attr content evs ts Hc Hmk Hpat Hex Hcont _ IH
     |attrs class_attr inner evs ts1 ts2 Hc Hmk Hpat _ IHin _ IH];
    intros self Hm Hp Hd Htxt Hmd.
  - exists (expecting_text self). cbn. f_equal.
    apply parser_eq; cbn; done.
  - cbn [run handle]. unfold handle_data. rewrite Hp. cbn [rbind].
    by apply IH.
  - cbn [run]. rewrite handle_ignored by done. cbn [rbind]. by apply IH.
  - (* a pill *)
    cbn [run handle].
    rewrite (handle_starttag_div _ _ _ Hc). cbn zeta.
    unfold has_marker in Hmk. unfold is_excluded in Hex.
    rewrite Hmk, Hm. cbn [rbind].
    change (in_main_tags_container
              (set_main true (main_container_depth self + 1) self))
      with true. cbn iota.
    rewrite Hpat, Hex. cbn [negb].
    rewrite run_app.
    edestruct (run_plain_content_in_pill content Hcont
                 (set_pill true 1 true []
                    (set_main true (main_container_depth self + 1) self)))
      as [e1 He1]; try done; cbn; try lia.
    rewrite He1. cbn [rbind run handle app].
    rewrite handle_endtag_close_pill by (cbn; done || lia).
    unfold pill_text.
    cbn [tags current_tag_text expecting_text main_container_depth
         set_pill set_main app].
    replace (main_container_depth self + 1 - 1)%Z
      with (main_container_depth self) by lia.
    cbn [rbind].
    edestruct (IH (set_pill false 0 e1 []
                  (set_tags (add_tag (tags self)
                               (strip (join (texts content))))
                     (set_main true (main_container_depth self) self))))
      as [e2 He2]; try done.
    exists e2.
    match goal with |- run ?s1 evs = _ =>
      replace s1 with (set_pill false 0 e1 []
                  (set_tags (add_tag (tags self)
                               (strip (join (texts content))))
                     (set_main true (main_container_depth self) self)))
    end.
    + rewrite He2. f_equal. apply parser_eq; cbn; done.
    + apply parser_eq; cbn; done.
  - (* a count badge *)
    cbn [run handle].
    rewrite (handle_starttag_div _ _ _ Hc). cbn zeta.
    unfold has_marker in Hmk. unfold is_excluded in Hex.
    rewrite Hmk, Hm. cbn [rbind].
    change (in_main_tags_container
              (set_main true (main_container_depth self + 1) self))
      with true. cbn iota.
    rewrite Hpat, Hex. cbn [negb].
    rewrite run_app, run_plain_content_outside_pill
      by (cbn; done || lia).
    cbn [rbind run handle].
    rewrite handle_endtag_outside_pill by (cbn; done || lia).
    cbn [rbind].
    replace (set_main true _ _) with self; [by apply IH|].
    apply parser_eq; cbn; try done; lia.
  - (* a plain element around pills *)
    cbn [run handle].
    rewrite (handle_starttag_plain _ _ _ Hc) by done. cbn [rbind].
    rewrite run_app.
    edestruct (IHin (set_main true (main_container_depth self + 1) self))
      as [e1 He1]; try done; cbn; try lia.
    rewrite He1. cbn [rbind run handle].
    rewrite handle_endtag_outside_pill by (cbn; done || lia).
    cbn [rbind].
    edestruct (IH (with_expecting e1
                     (set_tags (foldl add_tag (tags self) ts1) self)))
      as [e2 He2]; try done.
    exists e2.
    match goal with |- run ?s1 evs = _ =>
      replace s1 with (with_expecting e1
                         (set_tags (foldl add_tag (tags self) ts1) self))
    end.
    + rewrite He2. f_equal. apply parser_eq; cbn; try done.
      by rewrite foldl_app.
    + apply parser_eq; cbn; try done; lia.
Qed.

Lemma foldl_add_tag ts : forall acc,
  foldl add_tag acc ts
  = foldl TagProcessor.merge_step acc (filter (fun t => keepable t = true) ts).
Proof.
  induction ts as [|t ts IH]; intros acc; [done|].
  rewrite filter_cons. cbn [foldl]. rewrite IH.
  unfold add_tag. destruct (keepable t); cbn [andb].
  - rewrite decide_True by done. cbn [foldl].
    unfold TagProcessor.merge_step. by destruct (bool_decide (t ∈ acc)).
  - rewrite decide_False by done. reflexivity.
Qed.

(** X7.  On a page with one main container, whose pills hold plain content,
    the scan returns the trimmed texts of the pills of the container that
    are not empty and do not start with [+], each once, in document order.
    Count badges, text between the pills, and whatever lies outside the
    container, pills included, add nothing. *)
Theorem scan_page_tags evs ts :
  page evs ts ->
  scan evs
  = Ok (TagProcessor.dedup_first (filter (fun t => keepable t = true) ts)).
Proof.
  intros [before attrs class_attr body after ts' Hb Hc Hmk Hpat Hbody Ha].
  unfold scan. rewrite run_app, run_outside by done.
  cbn [rbind run handle].
  rewrite (handle_starttag_div _ _ _ Hc). cbn zeta.
  unfold has_marker in Hmk. rewrite Hmk. cbn [rbind].
  change (in_main_tags_container (set_main true 1 init)) with true.
  cbn iota. rewrite Hpat.
  change (in_tag_pill (set_main true 1 init)) with false. cbn iota.
  rewrite run_app.
  edestruct (run_container_body body ts' Hbody (set_main true 1 init))
    as [e He]; try done.
  rewrite He. cbn [rbind run handle].
  set (self1 := with_expecting e _).
  assert (Hend : handle_endtag self1 (py "div")
                 = set_main false 0 self1).
  { unfold handle_endtag. rewrite str_eqb_refl. reflexivity. }
  rewrite Hend. cbn [rbind].
  rewrite run_outside by done. cbn [rbind]. f_equal.
  subst self1. cbn [tags set_main with_expecting set_pill set_tags init].
  rewrite foldl_add_tag, foldl_merge_step. cbn [app].
  f_equal. apply filter_all. intros x _. apply not_elem_of_nil.
Qed.

End ScannerPages.

Section ScannerPageExamples.
Import NaobaijinTagParser Documents Samples.

Lemma page_events_is_page :
  page page_events
    [strip (join (texts [div "lineClamp1__4bd52"; Data (py " RPG ");
                         end_div]));
     strip (join (texts [Data (py "RPG")]));
     strip (join (texts [Data (py "fantasy")]))].
Proof.
  refine (page_intro
            [div "sidebar tags__08166"; div pill_cls; Data (py "side");
             end_div; end_div]
            [(py "class", Some (py main_cls))] (py main_cls)
            [ div pill_cls; div "lineClamp1__4bd52"; Data (py " RPG ");
              end_div; end_div;
              div pill_cls; Data (py "RPG"); end_div;
              div badge_cls; Data (py "+1"); end_div;
              div pill_cls; Data (py "fantasy"); end_div ]
            [] _ _ _ _ _ _ _); try (vm_compute; reflexivity).
  refine (body_pill [(py "class", Some (py pill_cls))] (py pill_cls)
            [div "lineClamp1__4bd52"; Data (py " RPG "); end_div]
            _ _ _ _ _ _ _ _); try (vm_compute; reflexivity).
  { refine (plain_div [(py "class", Some (py "lineClamp1__4bd52"))]
              (py "lineClamp1__4bd52") [Data (py " RPG ")] [] _ _ _ _ _);
      try (vm_compute; reflexivity); repeat constructor. }
  refine (body_pill [(py "class", Some (py pill_cls))] (py pill_cls)
            [Data (py "RPG")] _ _ _ _ _ _ _ _);
    try (vm_compute; reflexivity); [repeat constructor|].
  refine (body_badge [(py "class", Some (py badge_cls))] (py badge_cls)
            [Data (py "+1")] _ _ _ _ _ _ _ _);
    try (vm_compute; reflexivity); [repeat constructor|].
  refine (body_pill [(py "class", Some (py pill_cls))] (py pill_cls)
            [Data (py "fantasy")] [] [] _ _ _ _ _ _);
    try (vm_compute; reflexivity); repeat constructor.
Defined.

Lemma scan_page_tags_witness :
  scan page_events = Ok [py "RPG"; py "fantasy"].
Proof.
  rewrite (scan_page_tags _ _ page_events_is_page).
  vm_compute. reflexivity.
Defined.

End ScannerPageExamples.

(** ** More on the tag processor *)

Section ProcessorLaws.
Import TagProcessor.

Implicit Types (self : processor) (l acc : list str) (x t : str).

Lemma existing_list_Some l : existing_list (Some l) = l.
Proof. by destruct l. Qed.

Lemma foldl_merge_step_known l : forall acc,
  (forall x, x ∈ l -> x ∈ acc) -> foldl merge_step acc l = acc.
Proof.
  induction l as [|x l IH]; intros acc Hall; cbn [foldl]; [done|].
  unfold merge_step at 2.
  rewrite bool_decide_eq_true_2 by (apply Hall; left).
  apply IH. intros y Hy. apply Hall. by right.
Qed.

Lemma elem_of_foldl_merge_step l acc x :
  x ∈ foldl merge_step acc l <-> x ∈ acc \/ x ∈ l.
Proof.
  rewrite foldl_merge_step, elem_of_app, dedup_first_elem_of,
    list_elem_of_filter.
  destruct (decide (x ∈ acc)); tauto.
Qed.

Lemma merge_tags_elem existing_tags new_tags mode x :
  mode <> py "replace" ->
  x ∈ merge_tags existing_tags new_tags mode <->
  x ∈ existing_list existing_tags \/ x ∈ new_tags.
Proof.
  intros Hmode. unfold merge_tags, str_eqb.
  rewrite bool_decide_eq_false_2 by done.
  apply elem_of_foldl_merge_step.
Qed.

(** X8.  In merge mode the result holds exactly the existing and the new tags,
    and the existing tags stay in front, in their order. *)
Theorem merge_tags_elements existing_tags new_tags mode x :
  mode <> py "replace" ->
  (x ∈ merge_tags existing_tags new_tags mode <->
   x ∈ existing_list existing_tags \/ x ∈ new_tags) /\
  existing_list existing_tags `prefix_of`
    merge_tags existing_tags new_tags mode.
Proof.
  intros Hmode. split; [by apply merge_tags_elem|].
  rewrite merge_tags_merge by done. by apply prefix_app_r.
Qed.

(** X9.  Merging the same new tags a second time changes nothing. *)
Theorem merge_tags_idempotent existing_tags new_tags mode :
  mode <> py "replace" ->
  merge_tags (Some (merge_tags existing_tags new_tags mode)) new_tags mode
  = merge_tags existing_tags new_tags mode.
Proof.
  intros Hmode. unfold merge_tags at 1. unfold str_eqb.
  rewrite bool_decide_eq_false_2 by done.
  rewrite existing_list_Some. apply foldl_merge_step_known.
  intros x Hx. apply merge_tags_elem; [done|]. by right.
Qed.

(** *** [process] *)

Lemma elem_of_process self tags t :
  t ∈ process self tags <->
  exists tag, tag ∈ tags /\ (tag ∉ exclude_tags self) /\
              t = default tag (replace_rules self !! tag).
Proof.
  rewrite process_refines_spec. unfold process_spec.
  rewrite dedup_first_elem_of, list_elem_of_omap. unfold visit.
  split.
  - intros (tag & Hin & Hv). exists tag.
    destruct (decide (tag ∈ exclude_tags self)) as [He|He].
    + by rewrite bool_decide_eq_true_2 in Hv.
    + rewrite bool_decide_eq_false_2 in Hv by done. by simplify_eq.
  - intros (tag & Hin & He & ->). exists tag.
    by rewrite bool_decide_eq_false_2.
Qed.

(** X10.  The exclusion is tested on the tag as it comes in, before the
    substitution.  So the result is free of excluded tags when no rule
    maps to an excluded tag. *)
Theorem process_output_not_excluded self tags t :
  (forall tag t', replace_rules self !! tag = Some t' ->
                  t' ∉ exclude_tags self) ->
  t ∈ process self tags -> t ∉ exclude_tags self.
Proof.
  intros Hrules (tag & _ & He & ->)%elem_of_process.
  destruct (replace_rules self !! tag) as [t'|] eqn:Hr; cbn; [|done].
  by eapply Hrules.
Qed.

(** Without the condition an excluded tag does come out: with ["b"]
    excluded and the rule ["a" -> "b"], the tag ["a"] becomes ["b"]. *)
Example process_output_excluded :
  process (init (Some [py "b"]) (Some {[ py "a" := py "b" ]})) [py "a"]
  = [py "b"].
Proof. vm_compute. reflexivity. Qed.

Lemma omap_visit_fixed self l :
  (forall t, t ∈ l -> visit self t = Some t) -> omap (visit self) l = l.
Proof.
  induction l as [|t l IH]; intros Hall; cbn; [done|].
  rewrite Hall by left. cbn. f_equal. apply IH.
  intros y Hy. apply Hall. by right.
Qed.

Lemma dedup_first_idemp l : dedup_first (dedup_first l) = dedup_first l.
Proof. apply dedup_first_NoDup_id, dedup_first_NoDup. Qed.

(** X11.  Processing a processed list again changes nothing, when no rule maps
    to an excluded tag or to a tag that another rule maps elsewhere. *)
Theorem process_idempotent self tags :
  (forall tag t', replace_rules self !! tag = Some t' ->
     (t' ∉ exclude_tags self) /\
     default t' (replace_rules self !! t') = t') ->
  process self (process self tags) = process self tags.
Proof.
  intros Hrules.
  rewrite (process_refines_spec self (process self tags)).
  unfold process_spec. rewrite omap_visit_fixed.
  - rewrite process_refines_spec. apply dedup_first_idemp.
  - intros t (tag & _ & He & ->)%elem_of_process. unfold visit.
    destruct (replace_rules self !! tag) as [t'|] eqn:Hr; cbn.
    + destruct (Hrules _ _ Hr) as [Hne Hfix].
      rewrite bool_decide_eq_false_2 by done. by rewrite Hfix.
    + rewrite bool_decide_eq_false_2 by done. by rewrite Hr.
Qed.

(** X12.  A processor made without arguments removes repetitions and nothing
    else: a list without repetition comes back as it is. *)
Theorem process_default tags :
  process (init None None) tags = dedup_first tags /\
  (NoDup tags -> process (init None None) tags = tags).
Proof.
  assert (Heq : process (init None None) tags = dedup_first tags).
  { rewrite process_refines_spec. unfold process_spec. f_equal.
    apply omap_visit_fixed. intros t _. unfold visit, init. cbn.
    rewrite bool_decide_eq_false_2 by set_solver.
    by rewrite lookup_empty. }
  split; [done|]. intros Hnd. rewrite Heq. by apply dedup_first_NoDup_id.
Qed.

End ProcessorLaws.

(** ** More on the fetcher *)

Section FetcherLaws.
Import ForumTagFetcher Attempts.
Context `{Env}.

Implicit Types (url : str) (s : state).

(** X13.  [is_valid_naobaijin_url] says yes exactly when the URL is not empty,
    [urlparse] does not raise on it, and its netloc, in lower case, ends
    with [naobaijin.app]. *)
Theorem valid_url_iff_netloc_suffix url :
  is_valid_naobaijin_url url = true <->
  url <> [] /\
  exists netloc front,
    urlparse_netloc url = Ok netloc /\
    lower netloc = front ++ py "naobaijin.app".
Proof. apply is_valid_naobaijin_url_spec. Qed.

(** X14.  A URL whose netloc is, up to case, an allow-list domain or a subdomain
    of one is accepted. *)
Theorem allow_listed_host_is_valid url netloc :
  url <> [] ->
  urlparse_netloc url = Ok netloc ->
  host_on_allow_list (lower netloc) = true ->
  is_valid_naobaijin_url url = true.
Proof.
  intros Hne Hnet Hallow. apply is_valid_naobaijin_url_spec.
  split; [done|]. exists netloc.
  unfold host_on_allow_list in Hallow.
  cbn [existsb NAOBAIJIN_DOMAINS] in Hallow.
  rewrite orb_false_r in Hallow.
  assert (Hends : forall d, str_eqb (lower netloc) d
                            || endswith (lower netloc) (py "." ++ d) = true ->
                  exists t, lower netloc = t ++ d).
  { intros d [Heq|Hend]%orb_true_iff.
    - apply str_eqb_true in Heq. by exists [].
    - apply endswith_spec in Hend as [t Ht].
      exists (t ++ py "."). by rewrite Ht, <- app_assoc. }
  apply orb_true_iff in Hallow as [Hd|Hd]; apply Hends in Hd as [t Ht].
  - by exists t.
  - exists (t ++ py "www."). split; [done|]. by rewrite Ht, <- app_assoc.
Qed.

(** X15.  One attempt makes one request.  It returns tags, not empty, with
    no error, or no tags with an error text; or it lets an exception
    through, one that was raised in its [try] block and is no instance of
    [Exception], or the one that [str(e)] raised in a handler.  When the
    request raises, or the response has an error status, with an instance
    of [Exception] whose [str(e)] returns, the page is not read: no tags,
    no title, and the text of the exception.  When they raise an exception
    that is no instance of [Exception], it leaves the attempt. *)
Theorem try_fetch_outcome url s :
  requests (_try_fetch url s).2 = requests s ++ [url] /\
  match (_try_fetch url s).1 with
  | Ok (Some l, _, error) => l <> [] /\ error = None
  | Ok (None, _, error) => error <> None
  | Raise e' =>
      exists e w', raises url (world s) e w' /\ lets_through e e'
  end /\
  forall e,
    (session_get url (world s)).1 = Raise e \/
    (exists resp, (session_get url (world s)).1 = Ok resp /\
                  raise_for_status resp = Raise e) ->
    (is_Exception (exn_cls e) = true -> exn_str_raises e = None ->
     (_try_fetch url s).1 = Ok (None, None, Some (exn_msg e))) /\
    (is_Exception (exn_cls e) = false -> (_try_fetch url s).1 = Raise e).
Proof.
  split; [apply try_fetch_requests|].
  split; [apply try_fetch_shape|]. intros e He.
  assert (Hr : raises url (world s) e (session_get url (world s)).2).
  { unfold raises. destruct (session_get url (world s)) as [r w'].
    cbn [fst snd] in *. destruct He as [->|(resp & -> & Hst)]; [by left|].
    right. exists resp. split; [done|]. by left. }
  rewrite (try_fetch_raises _ _ _ _ Hr). cbn [fst].
  unfold except_Exception, str_exn. split.
  - by intros -> ->.
  - by intros ->.
Qed.

(** The tags of an attempt are what the scanner returns on some
    document. *)
Lemma try_fetch_tags_scanned url s l title error :
  (_try_fetch url s).1 = Ok (Some l, title, error) ->
  exists evs, NaobaijinTagParser.scan evs = Ok l.
Proof.
  destruct (try_fetch_cases url s) as [(found & t & w' & Hp)|(e & w' & He)].
  - rewrite (try_fetch_page _ _ _ _ _ Hp). cbn [fst].
    destruct Hp as (resp & evs & _ & _ & _ & Hscan & _).
    destruct found as [|t0 ts]; intros Heq; simplify_eq.
    by exists evs.
  - rewrite (try_fetch_raises _ _ _ _ He). cbn [fst].
    unfold except_Exception.
    destruct (is_Exception (exn_cls e)); [|done].
    destruct (str_exn e); cbn; intros Heq; simplify_eq.
Qed.

(** X16.  [fetch_tags] makes no request for an invalid URL, and one when the
    first attempt has tags or lets an exception through.  Otherwise it
    makes two.  The first goes to the URL without trailing slashes
    followed by [/0], the second to that URL itself.  Earlier requests
    stay on record. *)
Theorem fetch_tags_requests url s :
  let norm := rstrip_char 0x2F url in
  requests (fetch_tags url s).2
  = requests s ++
    (if is_valid_naobaijin_url url then
       match (_try_fetch (norm ++ py "/0") s).1 with
       | Ok (tags1, _, _) =>
           if truthy_tags tags1
           then [norm ++ py "/0"]
           else [norm ++ py "/0"; norm]
       | Raise _ => [norm ++ py "/0"]
       end
     else []).
Proof.
  intros norm. unfold fetch_tags.
  destruct (is_valid_naobaijin_url url); cbn [negb].
  2: { cbn. by rewrite app_nil_r. }
  fold norm.
  pose proof (try_fetch_requests (norm ++ py "/0") s) as Hr1.
  destruct (_try_fetch (norm ++ py "/0") s)
    as [[[[tags1 title1] error1]|e1] s1]; cbn [fst snd] in *; [|done].
  destruct (truthy_tags tags1); [done|].
  pose proof (try_fetch_requests norm s1) as Hr2.
  destruct (_try_fetch norm s1) as [[[[tags2 title2] error2]|e2] s2];
    cbn [fst snd] in *.
  all: assert (Hr : requests s2 = requests s ++ [norm ++ py "/0"; norm])
    by (by rewrite Hr2, Hr1, <- app_assoc).
  - by destruct (truthy_tags tags2).
  - done.
Qed.

(** X17.  The tags of a successful result come from the scanner: they are not
    empty as a list, have no repetition, and each is a trimmed, non-empty
    text that does not start with [+]. *)
Theorem fetch_tags_success_tags url s r :
  (fetch_tags url s).1 = Ok r ->
  success r = true ->
  tags r <> [] /\
  NoDup (tags r) /\
  Forall Documents.clean_tag (tags r).
Proof.
  assert (Hscan : forall l, (exists evs, NaobaijinTagParser.scan evs = Ok l) ->
            NoDup l /\ Forall Documents.clean_tag l).
  { intros l [evs Hs]. unfold NaobaijinTagParser.scan in Hs.
    destruct (NaobaijinTagParser.run NaobaijinTagParser.init evs)
      as [self'|] eqn:Hr; cbn in Hs; simplify_eq.
    split.
    - eapply run_tags_NoDup; [exact Hr|constructor].
    - eapply run_tags_clean; [exact Hr|constructor]. }
  unfold fetch_tags.
  destruct (negb (is_valid_naobaijin_url url)).
  { cbn. by intros [= <-]. }
  destruct (_try_fetch _ s) as [[[[tags1 title1] error1]|e1] s1] eqn:Ha1;
    [|done].
  destruct (truthy_tags tags1) eqn:Ht1.
  { cbn. intros [= <-] _. cbn. destruct tags1 as [l|]; [|done].
    split; [by destruct l|]. apply Hscan.
    eapply try_fetch_tags_scanned. by rewrite Ha1. }
  destruct (_try_fetch _ s1) as [[[[tags2 title2] error2]|e2] s2] eqn:Ha2;
    [|done].
  destruct (truthy_tags tags2) eqn:Ht2; [|by intros [= <-]].
  cbn. intros [= <-] _. cbn. destruct tags2 as [l|]; [|done].
  split; [by destruct l|]. apply Hscan.
  eapply try_fetch_tags_scanned. by rewrite Ha2.
Qed.

Lemma dropwhile_replicate (c : N) n (l : str) :
  dropwhile (N.eqb c) (replicate n c ++ l) = dropwhile (N.eqb c) l.
Proof.
  induction n as [|n IH]; cbn [replicate app dropwhile]; [done|].
  by rewrite N.eqb_refl.
Qed.

Lemma rev_replicate (c : N) n : rev (replicate n c) = replicate n c.
Proof.
  induction n as [|n IH]; cbn [replicate rev]; [done|].
  rewrite IH. clear. induction n as [|n IH]; cbn; [done|]. by rewrite IH.
Qed.

Lemma rstrip_char_trailing (c : N) (url : str) n :
  rstrip_char c (url ++ replicate n c) = rstrip_char c url.
Proof.
  unfold rstrip_char.
  by rewrite rev_app_distr, rev_replicate, dropwhile_replicate.
Qed.

(** X18.  Trailing slashes make no difference: two valid URLs that differ in
    them only are fetched alike. *)
Theorem fetch_tags_trailing_slashes url n s :
  is_valid_naobaijin_url url = true ->
  is_valid_naobaijin_url (url ++ replicate n 0x2F) = true ->
  fetch_tags (url ++ replicate n 0x2F) s = fetch_tags url s.
Proof.
  intros Hv Hv'. unfold fetch_tags.
  by rewrite Hv, Hv', rstrip_char_trailing.
Qed.

End FetcherLaws.

(** ** The title of a page *)

Section TitleLaws.
Import TitleExtraction.

Variable search : title_pattern -> str -> option str.

Lemma first_title_not_empty ps html title :
  first_title search ps html = Some title -> title <> [].
Proof.
  induction ps as [|p ps IH]; cbn; [done|].
  destruct (search p html) as [raw|]; [|done].
  destruct (truthy_str (clean_title raw)) eqn:Ht; [|done].
  intros [= <-]. by destruct (clean_title raw).
Qed.

(** X19.  [_extract_title] returns [None] or a title that is not empty: a match
    whose text cleans to nothing is passed over. *)
Theorem extract_title_not_empty html title :
  _extract_title search html = Some title -> title <> [].
Proof. apply first_title_not_empty. Qed.

Lemma elem_of_dropwhile (p : N -> bool) (s : str) (x : N) :
  x ∈ dropwhile p s -> x ∈ s.
Proof.
  induction s as [|c s IH]; cbn; [done|].
  destruct (p c); [|done]. intros Hx. right. by apply IH.
Qed.

Lemma elem_of_strip (s : str) (x : N) : x ∈ strip s -> x ∈ s.
Proof.
  unfold strip, rstrip, lstrip. intros Hx.
  apply list_elem_of_In, in_rev, list_elem_of_In in Hx.
  apply elem_of_dropwhile in Hx.
  apply list_elem_of_In, in_rev, list_elem_of_In in Hx.
  by apply elem_of_dropwhile in Hx.
Qed.

Lemma remove_tags_without (s : str) :
  0x3C ∉ s -> remove_tags s = s.
Proof.
  unfold remove_tags. induction s as [|c s IH]; intros Hno; [done|].
  apply not_elem_of_cons in Hno as [Hc Hs]. cbn [remove_tags_aux].
  rewrite (proj2 (N.eqb_neq c 0x3C)) by done. f_equal. by apply IH.
Qed.

Lemma replace_without (old new s : str) (c : N) :
  startswith old [c] = true -> c ∉ s -> replace old new s = s.
Proof.
  intros Hold. unfold replace.
  induction s as [|d s IH]; intros Hno; [done|].
  apply not_elem_of_cons in Hno as [Hd Hs]. cbn [replace_aux].
  assert (startswith (d :: s) old = false) as ->.
  { destruct old as [|o old]; [done|]. cbn in Hold |- *.
    apply andb_true_iff in Hold as [Ho _]. apply N.eqb_eq in Ho as ->.
    by rewrite (proj2 (N.eqb_neq o d)). }
  f_equal. by apply IH.
Qed.

(** X20.  A match without [<] and without [&] is only trimmed. *)
Theorem clean_title_plain raw :
  0x3C ∉ raw -> 0x26 ∉ raw -> clean_title raw = strip raw.
Proof.
  intros Hlt Hamp. unfold clean_title.
  assert (Hlt' : 0x3C ∉ strip raw).
  { intros Hin. by apply Hlt, elem_of_strip. }
  assert (Hamp' : 0x26 ∉ strip raw).
  { intros Hin. by apply Hamp, elem_of_strip. }
  rewrite remove_tags_without by done.
  rewrite (replace_without (py "&quot;") _ _ 0x26) by done.
  rewrite (replace_without (py "&amp;") _ _ 0x26) by done.
  rewrite (replace_without (py "&lt;") _ _ 0x26) by done.
  by rewrite (replace_without (py "&gt;") _ _ 0x26).
Qed.

End TitleLaws.

(** ** More on the hooks *)

Section PlanLaws.
Import AutomationService Actions.

Implicit Types (p : exec_plan) (a : action) (actions : list action).

#[local] Arguments py : simpl never.

Lemma str_eqb_false (x y : str) : x <> y -> str_eqb x y = false.
Proof. intros Hne. unfold str_eqb. by apply bool_decide_eq_false_2. Qed.

Lemma build_plan_app actions1 actions2 p :
  build_plan p (actions1 ++ actions2)
  = rbind (build_plan p actions1) (fun p' => build_plan p' actions2).
Proof.
  revert p. induction actions1 as [|a l IH]; intros p; cbn; [done|].
  destruct (plan_step p a); cbn; [apply IH|done].
Qed.

(** What one action does to each field of the plan. *)
Lemma plan_step_fields p a p' :
  plan_step p a = Ok p' ->
  fetch_forum_tags p' = fetch_forum_tags p /\
  (is_move_action a = false -> move p' = move p) /\
  (is_move_action a = true -> move p' = act_value a).
Proof.
  unfold plan_step, is_move_action.
  destruct (str_eqb (act_type a) (py "move_folder")).
  { intros [= <-]. cbn. done. }
  destruct (str_eqb (act_type a) (py "add_tag")).
  { destruct (set_add _ _); cbn; intros [= <-]; cbn; done. }
  destruct (str_eqb (act_type a) (py "remove_tag")).
  { destruct (set_add _ _); cbn; intros [= <-]; cbn; done. }
  destruct (str_eqb (act_type a) (py "set_favorite")).
  { intros [= <-]. cbn. done. }
  destruct (str_eqb (act_type a) ACT_FETCH_FORUM_TAGS);
    intros [= <-]; done.
Qed.

Lemma build_plan_fetch actions : forall p p',
  build_plan p actions = Ok p' ->
  fetch_forum_tags p' = fetch_forum_tags p.
Proof.
  induction actions as [|a l IH]; cbn; intros p p' Hb; [by simplify_eq|].
  destruct (plan_step p a) as [p1|] eqn:Hs; cbn in Hb; [|done].
  rewrite (IH _ _ Hb). by apply plan_step_fields in Hs as [? _].
Qed.

Lemma build_plan_move_kept actions : forall p p',
  build_plan p actions = Ok p' ->
  forallb (fun a => negb (is_move_action a)) actions = true ->
  move p' = move p.
Proof.
  induction actions as [|a l IH]; cbn; intros p p' Hb Hno;
    [by simplify_eq|].
  apply andb_true_iff in Hno as [Ha Hl]. apply negb_true_iff in Ha.
  destruct (plan_step p a) as [p1|] eqn:Hs; cbn in Hb; [|done].
  rewrite (IH _ _ Hb Hl). apply plan_step_fields in Hs as (_ & Hk & _).
  by apply Hk.
Qed.

(** X21.  Of several [move_folder] actions the last one decides. *)
Theorem build_plan_last_move_wins p before v after p' :
  build_plan p (before ++ mkAction (py "move_folder") v :: after) = Ok p' ->
  forallb (fun a => negb (is_move_action a)) after = true ->
  move p' = v.
Proof.
  rewrite build_plan_app. intros Hb Hafter.
  destruct (build_plan p before) as [p1|]; cbn in Hb; [|done].
  destruct (plan_step p1 (mkAction (py "move_folder") v)) as [p2|] eqn:Hs;
    cbn in Hb; [|done].
  rewrite (build_plan_move_kept _ _ _ Hb Hafter).
  apply plan_step_fields in Hs as (_ & _ & Hm). by apply Hm.
Qed.

(** X22.  The conversion of the actions fails exactly when an [add_tag] or
    [remove_tag] action carries a list or a dictionary, and then with a
    [TypeError]. *)
Theorem build_plan_raises_iff_unhashable p actions :
  match build_plan p actions with
  | Ok _ => existsb unhashable_tag_action actions = false
  | Raise e =>
      existsb unhashable_tag_action actions = true /\ exn_cls e = TypeError
  end.
Proof.
  revert p. induction actions as [|a l IH]; intros p; cbn; [done|].
  assert (Hstep : if unhashable_tag_action a
                  then exists e, plan_step p a = Raise e
                                 /\ exn_cls e = TypeError
                  else exists p1, plan_step p a = Ok p1).
  { unfold unhashable_tag_action, plan_step.
    destruct (str_eqb (act_type a) (py "move_folder")) eqn:Hmv.
    { apply str_eqb_true in Hmv. rewrite Hmv.
      change (str_eqb (py "move_folder") (py "add_tag")) with false.
      change (str_eqb (py "move_folder") (py "remove_tag")) with false.
      cbn. eauto. }
    destruct (str_eqb (act_type a) (py "add_tag")) eqn:Hadd; cbn.
    { destruct (act_value a); cbn; eauto. }
    destruct (str_eqb (act_type a) (py "remove_tag")) eqn:Hrm; cbn.
    { destruct (act_value a); cbn; eauto. }
    repeat case_match; eauto. }
  destruct (unhashable_tag_action a); cbn.
  - destruct Hstep as (e & -> & He). cbn. done.
  - destruct Hstep as (p1 & ->). cbn. apply IH.
Qed.

(** *** The tag sets of the plan *)

Lemma hashable_eqb_str t v : hashable_eqb (PStr t) v = true <-> v = PStr t.
Proof.
  destruct v; cbn; try (split; [done|by intros [=]]).
  rewrite str_eqb_true. split; [by intros ->|by intros [= ->]].
Qed.

Lemma hashable_eqb_refl v : unhashable v = false -> hashable_eqb v v = true.
Proof.
  destruct v as [|b|z|t| |]; cbn; try done; intros _.
  - by destruct b.
  - apply Z.eqb_refl.
  - apply str_eqb_refl.
Qed.

Lemma existsb_hashable_eqb_str t (l : list pyval) :
  existsb (hashable_eqb (PStr t)) l = true <-> PStr t ∈ l.
Proof.
  rewrite existsb_exists. split.
  - intros (v & Hin & ->%hashable_eqb_str). by apply list_elem_of_In.
  - intros Hin. exists (PStr t). split; [by apply list_elem_of_In|].
    by apply hashable_eqb_str.
Qed.

(** [s.add(v)] keeps a set without repetition, and adds [v]. *)
Lemma set_add_spec (l l' : list pyval) v :
  set_add l v = Ok l' ->
  (NoDup l -> NoDup l') /\
  (forall t, PStr t ∈ l' <-> PStr t ∈ l \/ v = PStr t).
Proof.
  unfold set_add. intros Hadd.
  assert (Hh : unhashable v = false) by (by destruct v).
  assert (Hl' : l' = if existsb (hashable_eqb v) l then l else l ++ [v])
    by (destruct v; by simplify_eq).
  clear Hadd. subst l'.
  destruct (existsb (hashable_eqb v) l) eqn:Hex.
  - split; [done|]. intros t. split; [by left|].
    intros [Hin| ->]; [done|]. by apply existsb_hashable_eqb_str.
  - split.
    + intros Hnd. apply NoDup_app. split; [done|].
      split; [|apply NoDup_singleton].
      intros x Hx ->%list_elem_of_singleton.
      assert (existsb (hashable_eqb v) l = true); [|congruence].
      apply existsb_exists. exists v.
      split; [by apply list_elem_of_In|by apply hashable_eqb_refl].
    + intros t. rewrite elem_of_app, list_elem_of_singleton.
      split; intros [Hin|Heq]; auto.
Qed.

Lemma plan_step_add_tags p a p' :
  plan_step p a = Ok p' ->
  (NoDup (add_tags p) -> NoDup (add_tags p')) /\
  (forall t, PStr t ∈ add_tags p' <->
     PStr t ∈ add_tags p \/
     (act_type a = py "add_tag" /\ act_value a = PStr t)).
Proof.
  unfold plan_step.
  destruct (str_eqb (act_type a) (py "move_folder")) eqn:Hmv.
  { intros [= <-]. cbn. split; [done|]. intros t. split; [by left|].
    intros [Hin|[Hty _]]; [done|]. apply str_eqb_true in Hmv.
    rewrite Hty in Hmv. by vm_compute in Hmv. }
  destruct (str_eqb (act_type a) (py "add_tag")) eqn:Hadd.
  { destruct (set_add (add_tags p) (act_value a)) as [l'|] eqn:Hs;
      cbn; intros [= <-]; cbn.
    apply set_add_spec in Hs as [Hnd Hin]. split; [done|].
    intros t. rewrite Hin. apply str_eqb_true in Hadd.
    split; intros [?|?]; auto; tauto. }
  assert (Hno : forall t, ~ (act_type a = py "add_tag"
                             /\ act_value a = PStr t)).
  { intros t [Hty _]. apply str_eqb_true in Hty. congruence. }
  destruct (str_eqb (act_type a) (py "remove_tag")).
  { destruct (set_add _ _); cbn; intros [= <-]; cbn.
    split; [done|]. intros t. specialize (Hno t). tauto. }
  destruct (str_eqb (act_type a) (py "set_favorite")).
  { intros [= <-]. cbn. split; [done|]. intros t. specialize (Hno t).
    tauto. }
  destruct (str_eqb (act_type a) ACT_FETCH_FORUM_TAGS);
    intros [= <-]; (split; [done|]); intros t; specialize (Hno t); tauto.
Qed.

Lemma build_plan_add_tags_from actions : forall p p',
  build_plan p actions = Ok p' ->
  (NoDup (add_tags p) -> NoDup (add_tags p')) /\
  (forall t, PStr t ∈ add_tags p' <->
     PStr t ∈ add_tags p \/
     exists a, a ∈ actions /\ act_type a = py "add_tag"
               /\ act_value a = PStr t).
Proof.
  induction actions as [|a l IH]; cbn; intros p p' Hb.
  - simplify_eq. split; [done|]. intros t. split; [by left|].
    intros [Hin|(a & Ha & _)]; [done|]. by apply elem_of_nil in Ha.
  - destruct (plan_step p a) as [p1|] eqn:Hs; cbn in Hb; [|done].
    apply plan_step_add_tags in Hs as [Hnd1 Hin1].
    apply IH in Hb as [Hnd Hin]. split; [auto|].
    intros t. rewrite Hin, Hin1. split.
    + intros [[Hp|Ha]|(a' & Ha' & Hty)]; auto.
      * right. exists a. split; [left|done].
      * right. exists a'. split; [by right|done].
    + intros [Hp|(a' & Ha' & Hty)]; auto.
      apply elem_of_cons in Ha' as [->|Ha']; auto.
      right. by exists a'.
Qed.

(** X23.  The [add_tags] of the plan built from the evaluated actions is a set:
    it has no repetition, and a string is in it exactly when an [add_tag]
    action has it as value. *)
Theorem build_plan_add_tags actions p' :
  build_plan empty_plan actions = Ok p' ->
  NoDup (add_tags p') /\
  (forall t, PStr t ∈ add_tags p' <->
     exists a, a ∈ actions /\ act_type a = py "add_tag"
               /\ act_value a = PStr t).
Proof.
  intros Hb. apply build_plan_add_tags_from in Hb as [Hnd Hin].
  split; [apply Hnd; constructor|].
  intros t. rewrite Hin. split; [|by right].
  intros [Hp|Ha]; [|done]. by apply elem_of_nil in Hp.
Qed.

End PlanLaws.

Section HookLaws.
Import AutomationService Actions.
Context `{Env}.

Implicit Types (card_id : str) (s : state) (actions : list action).

#[local] Arguments py : simpl never.

(** Both hooks when [prepare] gives no actions, returns early, or
    raises. *)
Lemma hooks_without_actions card_id s r s1 :
  prepare card_id s = (r, s1) ->
  match r with Ok (Some (_ :: _, _)) => False | _ => True end ->
  (auto_run_rules_on_card card_id s).2 = s1 /\
  (auto_run_forum_tags_on_link_update card_id s).2 = s1.
Proof.
  intros Hprep Hr.
  unfold auto_run_rules_on_card, auto_run_forum_tags_on_link_update,
    try_except, auto_run_rules_on_card_body,
    auto_run_forum_tags_on_link_update_body, bind.
  rewrite Hprep. by destruct r as [[[[|a l] ui]|]|e].
Qed.

Lemma truthy_extract_fetch_config actions :
  truthy (extract_fetch_config actions) = true ->
  exists kv d, extract_fetch_config actions = PDict (kv :: d).
Proof.
  induction actions as [|a l IH]; cbn; [done|].
  destruct (str_eqb (act_type a) ACT_FETCH_FORUM_TAGS); [|done].
  destruct (act_value a) as [| | | | |[|kv d]]; cbn; try done. eauto.
Qed.

(** X24.  The import hook calls the executor at most once, for the card it was
    called for, and never with a fetch configuration in the plan. *)
Theorem import_hook_executor_calls card_id s :
  let s' := (auto_run_rules_on_card card_id s).2 in
  applied s' = applied s \/
  exists p ui_data,
    applied s' = applied s ++ [(card_id, p, ui_data)] /\
    fetch_forum_tags p = PNone.
Proof.
  destruct (prepare card_id s) as [r s1] eqn:Hprep.
  pose proof (prepare_applied _ _ _ _ Hprep) as Happ.
  destruct r as [[[[|a l] ui]|]|e].
  2: { rewrite (import_hook_after_prepare _ _ _ _ _ _ Hprep).
       destruct (build_plan empty_plan (a :: l)) as [p|e] eqn:Hb;
         [|by left].
       destruct (apply_plan card_id p ui (world s1)) as [r w]. cbn.
       right. exists p, ui. rewrite Happ. split; [done|].
       by rewrite (build_plan_fetch _ _ _ Hb). }
  all: left; cbn zeta;
    by rewrite (proj1 (hooks_without_actions _ _ _ _ Hprep I)).
Qed.

(** X25.  The link-update hook calls the executor at most once, and only with a
    plan that holds a fetch configuration, a mapping that is not empty,
    and nothing else. *)
Theorem link_hook_executor_calls card_id s :
  let s' := (auto_run_forum_tags_on_link_update card_id s).2 in
  applied s' = applied s \/
  exists kv d ui_data,
    applied s'
    = applied s ++ [(card_id, fetch_plan (PDict (kv :: d)), ui_data)].
Proof.
  destruct (prepare card_id s) as [r s1] eqn:Hprep.
  pose proof (prepare_applied _ _ _ _ Hprep) as Happ.
  destruct r as [[[[|a l] ui]|]|e].
  2: { rewrite (link_hook_after_prepare _ _ _ _ _ _ Hprep). cbn zeta.
       destruct (truthy (extract_fetch_config (a :: l))) eqn:Ht;
         [|by left].
       apply truthy_extract_fetch_config in Ht as (kv & d & ->).
       destruct (apply_plan card_id _ ui (world s1)) as [r w]. cbn.
       right. exists kv, d, ui. by rewrite Happ. }
  all: left; cbn zeta;
    by rewrite (proj2 (hooks_without_actions _ _ _ _ Hprep I)).
Qed.

(** X26.  With no active rule set in the configuration, either hook returns
    [None] after reading the configuration: no further collaborator is
    consulted and the executor is not called. *)
Theorem hooks_disabled card_id s cfg w :
  load_config (world s) = (Ok cfg, w) ->
  truthy (dict_get cfg (py "active_automation_ruleset") PNone) = false ->
  auto_run_rules_on_card card_id s
    = (Ok PNone, {| world := w; applied := applied s |}) /\
  auto_run_forum_tags_on_link_update card_id s
    = (Ok PNone, {| world := w; applied := applied s |}).
Proof.
  intros Hcfg Hoff.
  unfold auto_run_rules_on_card, auto_run_forum_tags_on_link_update,
    try_except, auto_run_rules_on_card_body,
    auto_run_forum_tags_on_link_update_body, prepare, bind, call, ret.
  rewrite Hcfg, Hoff. done.
Qed.

Lemma plan_step_fetch p a :
  is_fetch_action a = true -> plan_step p a = Ok p.
Proof.
  unfold is_fetch_action, plan_step. intros Hf.
  apply str_eqb_true in Hf. rewrite Hf.
  change (str_eqb ACT_FETCH_FORUM_TAGS (py "move_folder")) with false.
  change (str_eqb ACT_FETCH_FORUM_TAGS (py "add_tag")) with false.
  change (str_eqb ACT_FETCH_FORUM_TAGS (py "remove_tag")) with false.
  change (str_eqb ACT_FETCH_FORUM_TAGS (py "set_favorite")) with false.
  cbn iota. by rewrite str_eqb_refl.
Qed.

Lemma build_plan_only_fetch actions p :
  forallb is_fetch_action actions = true -> build_plan p actions = Ok p.
Proof.
  induction actions as [|a l IH]; cbn; [done|].
  intros [Ha Hl]%andb_true_iff. rewrite plan_step_fetch by done. cbn.
  by apply IH.
Qed.

(** X27.  When all evaluated actions are fetch actions, the import hook still
    calls the executor, with the empty plan. *)
Theorem import_hook_only_fetch_actions card_id s s1 a actions ui_data :
  prepare card_id s = (Ok (Some (a :: actions, ui_data)), s1) ->
  forallb is_fetch_action (a :: actions) = true ->
  auto_run_rules_on_card card_id s =
  let (r, w) := apply_plan card_id empty_plan ui_data (world s1) in
  (executor_answer r,
   {| world := w;
      applied := applied s1 ++ [(card_id, empty_plan, ui_data)] |}).
Proof.
  intros Hprep Hall.
  rewrite (import_hook_after_prepare _ _ _ _ _ _ Hprep).
  by rewrite build_plan_only_fetch.
Qed.

(** X28.  The link-update hook does not look at actions of other types: they
    can be taken out of the evaluated list without changing the
    configuration it finds. *)
Theorem extract_fetch_config_other_actions actions :
  extract_fetch_config (filter (fun a => is_fetch_action a = true) actions)
  = extract_fetch_config actions.
Proof.
  induction actions as [|a l IH]; [done|].
  rewrite filter_cons.
  destruct (decide (is_fetch_action a = true)) as [Ha|Ha];
    unfold is_fetch_action in Ha.
  - cbn. by rewrite Ha.
  - apply not_true_is_false in Ha. cbn. by rewrite Ha.
Qed.

(** X29.  When the first fetch action carries a mapping that is not empty, the
    link-update hook calls the executor once, with the plan that holds
    this mapping and nothing else.  It returns what the executor returns,
    wrapped.  When the executor raises an instance of [Exception], the
    hook returns [None], unless formatting the exception for the log
    raises, and then that exception reaches the caller; when the executor
    raises an exception that is no instance of [Exception], it reaches the
    caller. *)
Theorem link_hook_runs_executor card_id s s1 before kv d after ui_data :
  prepare card_id s
    = (Ok (Some (before
                 ++ mkAction ACT_FETCH_FORUM_TAGS (PDict (kv :: d)) :: after,
                 ui_data)), s1) ->
  Forall (fun a => act_type a <> ACT_FETCH_FORUM_TAGS) before ->
  auto_run_forum_tags_on_link_update card_id s =
  let plan := fetch_plan (PDict (kv :: d)) in
  let (r, w) := apply_plan card_id plan ui_data (world s1) in
  (match r with
   | Ok res => Ok (ret_result res)
   | Raise e =>
       if is_Exception (exn_cls e) then
         match exn_str_raises e with
         | None => Ok PNone
         | Some (cls, msg) => Raise (Exn cls msg)
         end
       else Raise e
   end,
   {| world := w; applied := applied s1 ++ [(card_id, plan, ui_data)] |}).
Proof.
  intros Hprep Hbefore.
  destruct (before ++ mkAction ACT_FETCH_FORUM_TAGS (PDict (kv :: d))
                   :: after) as [|a l] eqn:Hl.
  { by destruct before. }
  rewrite (link_hook_after_prepare _ _ _ _ _ _ Hprep). cbn zeta.
  rewrite <- Hl, extract_fetch_config_first by done.
  cbn [truthy].
  destruct (apply_plan card_id _ ui_data (world s1)) as [[res|e] w]; [done|].
  cbn [executor_answer]. f_equal. unfold at_boundary.
  by destruct (exn_cls e).
Qed.

(** X30.  When none of the evaluated actions is a fetch action, the link-update
    hook returns [{run: true, actions: 0, reason:
    "no_fetch_forum_tags_action"}] without calling the executor. *)
Theorem link_hook_without_fetch_action card_id s s1 a actions ui_data :
  prepare card_id s = (Ok (Some (a :: actions, ui_data)), s1) ->
  Forall (fun a => act_type a <> ACT_FETCH_FORUM_TAGS) (a :: actions) ->
  auto_run_forum_tags_on_link_update card_id s
    = (Ok ret_no_fetch_action, s1) /\
  applied s1 = applied s.
Proof.
  intros Hprep Hnone. split; [|by eapply prepare_applied].
  rewrite (link_hook_after_prepare _ _ _ _ _ _ Hprep). cbn zeta.
  by rewrite extract_fetch_config_none.
Qed.

End HookLaws.

(** ** The properties at sample inputs *)

Section ScannerWitnesses.
Import NaobaijinTagParser Documents Samples MoreSamples.

Lemma scan_without_container_witness :
  run init sidebar_only = Ok init /\ scan sidebar_only = Ok [].
Proof.
  apply (scan_without_container sidebar_only). vm_compute. reflexivity.
Defined.

Lemma run_consistent_witness :
  exists self', run init unbalanced = Ok self' /\ consistent self'.
Proof.
  eexists. split; [vm_compute; reflexivity|].
  apply (run_consistent unbalanced). vm_compute. reflexivity.
Defined.

Lemma scan_tags_clean_witness :
  Forall clean_tag [py "RPG"; py "fantasy"].
Proof.
  apply (scan_tags_clean page_events). vm_compute. reflexivity.
Defined.

Lemma run_ignores_expecting_text_witness :
  rbind (run (with_expecting true init) page_events)
    (fun self => Ok (with_expecting false self))
  = rbind (run init page_events)
      (fun self => Ok (with_expecting false self)).
Proof.
  apply (run_ignores_expecting_text page_events). reflexivity.
Defined.

End ScannerWitnesses.

Section ProcessorWitnesses.
Import TagProcessor MoreSamples.

Lemma merge_is_not_replace : py "merge" <> py "replace".
Proof. intros Heq. vm_compute in Heq. discriminate Heq. Qed.

Lemma merge_tags_elements_witness :
  (py "c" ∈ merge_tags (Some [py "a"; py "b"]) [py "b"; py "c"] (py "merge")
   <-> py "c" ∈ existing_list (Some [py "a"; py "b"])
       \/ py "c" ∈ [py "b"; py "c"]) /\
  existing_list (Some [py "a"; py "b"]) `prefix_of`
    merge_tags (Some [py "a"; py "b"]) [py "b"; py "c"] (py "merge").
Proof.
  exact (merge_tags_elements (Some [py "a"; py "b"]) [py "b"; py "c"]
           (py "merge") (py "c") merge_is_not_replace).
Defined.

Lemma merge_tags_idempotent_witness :
  merge_tags
    (Some (merge_tags (Some [py "a"; py "b"]) [py "b"; py "c"] (py "merge")))
    [py "b"; py "c"] (py "merge")
  = merge_tags (Some [py "a"; py "b"]) [py "b"; py "c"] (py "merge").
Proof.
  exact (merge_tags_idempotent (Some [py "a"; py "b"]) [py "b"; py "c"]
           (py "merge") merge_is_not_replace).
Defined.

Lemma sample_rules tag t' :
  replace_rules sample_processor !! tag = Some t' ->
  (t' ∉ exclude_tags sample_processor) /\
  default t' (replace_rules sample_processor !! t') = t'.
Proof.
  change (replace_rules sample_processor)
    with ({[ py "c" := py "z" ]} : gmap str str).
  change (exclude_tags sample_processor)
    with (list_to_set [py "b"] : gset str).
  intros [_ <-]%lookup_singleton_Some. split.
  - rewrite list_to_set_singleton, elem_of_singleton.
    intros Heq. vm_compute in Heq. discriminate Heq.
  - rewrite lookup_singleton_ne; [done|].
    intros Heq. vm_compute in Heq. discriminate Heq.
Qed.

Lemma process_output_not_excluded_witness :
  py "z" ∈ process sample_processor [py "a"; py "b"; py "c"] /\
  (py "z" ∉ exclude_tags sample_processor).
Proof.
  assert (Hin : py "z" ∈ process sample_processor [py "a"; py "b"; py "c"]).
  { assert (Hp : process sample_processor [py "a"; py "b"; py "c"]
                 = [py "a"; py "z"]) by (vm_compute; reflexivity).
    rewrite Hp. right. left. }
  split; [exact Hin|].
  apply (process_output_not_excluded sample_processor
           [py "a"; py "b"; py "c"] (py "z")); [|exact Hin].
  intros tag t' Hr. exact (proj1 (sample_rules tag t' Hr)).
Defined.

Lemma process_idempotent_witness :
  process sample_processor
    (process sample_processor [py "a"; py "b"; py "c"; py "a"])
  = process sample_processor [py "a"; py "b"; py "c"; py "a"].
Proof.
  apply (process_idempotent sample_processor). exact sample_rules.
Defined.

End ProcessorWitnesses.

Section FetcherWitnesses.
Import ForumTagFetcher Samples.

Lemma allow_listed_host_is_valid_witness :
  @is_valid_naobaijin_url (canned offline)
    (py "HTTPS://Forum.Naobaijin.APP/t/1") = true.
Proof.
  apply (@allow_listed_host_is_valid (canned offline)
           (py "HTTPS://Forum.Naobaijin.APP/t/1")
           (py "Forum.Naobaijin.APP")).
  - intros Heq. vm_compute in Heq. discriminate Heq.
  - vm_compute. reflexivity.
  - vm_compute. reflexivity.
Defined.

Lemma fetch_tags_success_tags_witness :
  let r := {| success := true; tags := [py "RPG"; py "fantasy"];
              error := None; title := Some (py "<page>") |} in
  (@fetch_tags (canned bare_only)
     (py "https://naobaijin.app/t/123/") (fresh bare_only)).1 = Ok r /\
  (tags r <> [] /\ NoDup (tags r) /\ Forall Documents.clean_tag (tags r)).
Proof.
  intros r.
  assert (Hf : (@fetch_tags (canned bare_only)
                  (py "https://naobaijin.app/t/123/") (fresh bare_only)).1
               = Ok r)
    by (vm_compute; reflexivity).
  split; [exact Hf|].
  apply (@fetch_tags_success_tags (canned bare_only) _ _ r Hf).
  reflexivity.
Defined.

Lemma fetch_tags_trailing_slashes_witness :
  @fetch_tags (canned bare_only)
    (py "https://naobaijin.app/t/123" ++ replicate 2 0x2F) (fresh bare_only)
  = @fetch_tags (canned bare_only) (py "https://naobaijin.app/t/123")
      (fresh bare_only).
Proof.
  apply (@fetch_tags_trailing_slashes (canned bare_only)).
  - vm_compute. reflexivity.
  - vm_compute. reflexivity.
Defined.

End FetcherWitnesses.

Section TitleWitnesses.
Import TitleExtraction MoreSamples.

Lemma extract_title_not_empty_witness :
  _extract_title sample_search [] = Some (py "Tom & Jerry") /\
  py "Tom & Jerry" <> [].
Proof.
  assert (He : _extract_title sample_search [] = Some (py "Tom & Jerry"))
    by (vm_compute; reflexivity).
  split; [exact He|].
  exact (extract_title_not_empty sample_search [] _ He).
Defined.

Lemma clean_title_plain_witness :
  clean_title (py "  My thread  ") = strip (py "  My thread  ").
Proof.
  apply clean_title_plain.
  - intros Hin. apply (bool_decide_pack _) in Hin. vm_compute in Hin.
    exact Hin.
  - intros Hin. apply (bool_decide_pack _) in Hin. vm_compute in Hin.
    exact Hin.
Defined.

End TitleWitnesses.

Section HookWitnesses.
Import AutomationService Actions Samples MoreSamples.

Lemma build_plan_last_move_wins_witness :
  exists p',
    build_plan empty_plan tag_actions = Ok p' /\
    move p' = PStr (py "archive").
Proof.
  eexists. split; [vm_compute; reflexivity|].
  apply (build_plan_last_move_wins empty_plan
           [ mkAction (py "add_tag") (PStr (py "x"));
             mkAction (py "move_folder") (PStr (py "inbox"));
             mkAction (py "add_tag") (PStr (py "x")) ]
           (PStr (py "archive"))
           [ mkAction (py "remove_tag") (PStr (py "z")) ]).
  - vm_compute. reflexivity.
  - vm_compute. reflexivity.
Defined.

Lemma build_plan_add_tags_witness :
  exists p',
    build_plan empty_plan tag_actions = Ok p' /\
    NoDup (add_tags p') /\
    (PStr (py "x") ∈ add_tags p' <->
     exists a, a ∈ tag_actions /\ act_type a = py "add_tag"
               /\ act_value a = PStr (py "x")).
Proof.
  eexists. split; [vm_compute; reflexivity|].
  edestruct (build_plan_add_tags tag_actions) as [Hnd Hin].
  { vm_compute. reflexivity. }
  split; [exact Hnd|]. exact (Hin (py "x")).
Defined.

Lemma hooks_disabled_witness :
  @auto_run_rules_on_card service_off (py "card-1")
    (@mkState service_off tt [])
    = (Ok PNone, @mkState service_off tt []) /\
  @auto_run_forum_tags_on_link_update service_off (py "card-1")
    (@mkState service_off tt [])
    = (Ok PNone, @mkState service_off tt []).
Proof.
  apply (@hooks_disabled service_off (py "card-1")
           (@mkState service_off tt [])
           [(py "active_automation_ruleset", PNone)] tt).
  - reflexivity.
  - vm_compute. reflexivity.
Defined.

Lemma import_hook_only_fetch_actions_witness :
  let evaluated := Ok [mkAction ACT_FETCH_FORUM_TAGS fetch_config] in
  @auto_run_rules_on_card (service evaluated (Ok (PBool true))) (py "card-1")
    (idle evaluated (Ok (PBool true)))
  = (Ok (ret_result (PBool true)),
     @mkState (service evaluated (Ok (PBool true))) tt
       [(py "card-1", empty_plan, [])]).
Proof.
  intros evaluated.
  assert (Hprep :
    @prepare (service evaluated (Ok (PBool true))) (py "card-1")
      (idle evaluated (Ok (PBool true)))
    = (Ok (Some ([mkAction ACT_FETCH_FORUM_TAGS fetch_config], [])),
       idle evaluated (Ok (PBool true))))
    by (vm_compute; reflexivity).
  rewrite (@import_hook_only_fetch_actions
             (service evaluated (Ok (PBool true))) _ _ _ _ _ _ Hprep
             ltac:(vm_compute; reflexivity)).
  reflexivity.
Defined.

Lemma link_hook_runs_executor_witness :
  let evaluated :=
    Ok [ mkAction (py "add_tag") (PStr (py "x"));
         mkAction ACT_FETCH_FORUM_TAGS fetch_config;
         mkAction ACT_FETCH_FORUM_TAGS (PDict []) ] in
  @auto_run_forum_tags_on_link_update (service evaluated (Ok (PBool true)))
    (py "card-1") (idle evaluated (Ok (PBool true)))
  = (Ok (ret_result (PBool true)),
     @mkState (service evaluated (Ok (PBool true))) tt
       [(py "card-1", fetch_plan fetch_config, [])]).
Proof.
  intros evaluated.
  assert (Hprep :
    @prepare (service evaluated (Ok (PBool true))) (py "card-1")
      (idle evaluated (Ok (PBool true)))
    = (Ok (Some ([mkAction (py "add_tag") (PStr (py "x"))]
                 ++ mkAction ACT_FETCH_FORUM_TAGS
                      (PDict [(py "merge_mode", PStr (py "merge"))])
                 :: [mkAction ACT_FETCH_FORUM_TAGS (PDict [])],
                 [])),
       idle evaluated (Ok (PBool true))))
    by (vm_compute; reflexivity).
  assert (Hpre : Forall (fun a => act_type a <> ACT_FETCH_FORUM_TAGS)
                   [mkAction (py "add_tag") (PStr (py "x"))]).
  { constructor; [|constructor]. intros Heq. vm_compute in Heq.
    discriminate Heq. }
  rewrite (@link_hook_runs_executor
             (service evaluated (Ok (PBool true))) _ _ _ _ _ _ _ _
             Hprep Hpre).
  reflexivity.
Defined.

Lemma link_hook_without_fetch_action_witness :
  let evaluated := Ok [mkAction (py "add_tag") (PStr (py "x"))] in
  @auto_run_forum_tags_on_link_update (service evaluated (Ok (PBool true)))
    (py "card-1") (idle evaluated (Ok (PBool true)))
  = (Ok ret_no_fetch_action, idle evaluated (Ok (PBool true))).
Proof.
  intros evaluated.
  assert (Hprep :
    @prepare (service evaluated (Ok (PBool true))) (py "card-1")
      (idle evaluated (Ok (PBool true)))
    = (Ok (Some ([mkAction (py "add_tag") (PStr (py "x"))], [])),
       idle evaluated (Ok (PBool true))))
    by (vm_compute; reflexivity).
  assert (Hnone : Forall (fun a => act_type a <> ACT_FETCH_FORUM_TAGS)
                    [mkAction (py "add_tag") (PStr (py "x"))]).
  { constructor; [|constructor]. intros Heq. vm_compute in Heq.
    discriminate Heq. }
  exact (proj1 (@link_hook_without_fetch_action
                  (service evaluated (Ok (PBool true)))
                  _ _ _ _ _ _ Hprep Hnone)).
Defined.

End HookWitnesses.
